(** * Mock line-survival server: a shallow embedding of
      [mock-line-survival-server.py] and the properties of its handler.

    The handler class [LineSurvivalHandler] defines two methods, [do_POST]
    and [do_OPTIONS].  The embedding follows the source line by line:

    - Python [str] values are lists of Unicode code points (module [Str]);
    - Python [float] values are the finite binary64 numbers, kept as exact
      rationals with the rounding of every operation written out
      (module [Binary64]);
    - the values [json.loads] builds are the inductive type [pyvalue];
    - the handler runs in a state-and-exception monad whose state holds the
      random source and the calls made on the connection so far; a raised
      exception keeps the state, as in Python;
    - the functions of Python's library that parse text ([int], [bytes.decode],
      [json.loads]), and the room there is for a read buffer, are a
      parameter of the development (class [PyLib]). *)

From Stdlib Require Import ZArith QArith Qround Qpower Lqa Lia.
From Stdlib Require Import List String Ascii Bool DecimalString.
From Stdlib Require Import Init.Byte.
From Stdlib Require Floats.
Import ListNotations.

Local Open Scope string_scope.
Local Open Scope Z_scope.

#[local] Set Warnings "-register-all".

(* ================================================================== *)
(** * Python strings *)
(* ================================================================== *)

Module Str.

(** A [str] is a sequence of code points. *)
Definition char := N.
Definition str := list char.

(** The code points of a literal written in ASCII. *)
Definition of_string (s : string) : str :=
  List.map N_of_ascii (list_ascii_of_string s).

(** [c.isspace()], the whitespace table of CPython's [str]: the characters
    that [str.strip()] without arguments removes. *)
Definition isspace (c : char) : bool :=
  ((9 <=? c) && (c <=? 13) || (28 <=? c) && (c <=? 32)
   || (c =? 133) || (c =? 160) || (c =? 5760)
   || (8192 <=? c) && (c <=? 8202)
   || (c =? 8232) || (c =? 8233) || (c =? 8239) || (c =? 8287)
   || (c =? 12288))%N.

Fixpoint lstrip (s : str) : str :=
  match s with
  | c :: s' => if isspace c then lstrip s' else s
  | [] => []
  end.

Definition rstrip (s : str) : str := rev (lstrip (rev s)).

(** [s.strip()] *)
Definition strip (s : str) : str := rstrip (lstrip s).

(** [s.startswith(prefix)] *)
Fixpoint startswith (s prefix : str) : bool :=
  match prefix, s with
  | [], _ => true
  | p :: prefix', c :: s' => (c =? p)%N && startswith s' prefix'
  | _ :: _, [] => false
  end.

(** [sub in s] *)
Fixpoint contains (s sub : str) : bool :=
  startswith s sub
  || match s with
     | [] => false
     | _ :: s' => contains s' sub
     end.

(** Truth value of a string: [bool(s)]. *)
Definition truthy (s : str) : bool :=
  match s with [] => false | _ :: _ => true end.

End Str.

Import Str.

(** [py "text"] is the Python literal ['text']. *)
Abbreviation py := Str.of_string (only parsing).

(* ================================================================== *)
(** * Python floats *)
(* ================================================================== *)

Module Binary64.

Local Open Scope Q_scope.

(** A finite binary64 number is a rational; [b64] rounds an exact result to
    the nearest representable one, ties to even, with 53 bits of precision
    and the smallest exponent of the format.  Every quantity the handler
    computes lies between 0 and 1, so overflow to infinity never happens and
    is not represented. *)
Definition float := Q.

(** [floor (log2 q)], for [0 < q]. *)
Definition ilog2 (q : Q) : Z :=
  let p := (Z.log2 (Qnum q) - Z.log2 (Zpos (Qden q)))%Z in
  if Qle_bool (2 ^ p) q then p else (p - 1)%Z.

(** Nearest integer, ties to even. *)
Definition rne (q : Q) : Z :=
  let f := Qfloor q in
  match Qcompare (q - inject_Z f) (1 # 2) with
  | Lt => f
  | Gt => (f + 1)%Z
  | Eq => if Z.even f then f else (f + 1)%Z
  end.

(** Exponent of the unit in the last place of the binade of [q]. *)
Definition ulp_exp (q : Q) : Z := Z.max (ilog2 q - 52) (-1074).

Definition round_pos (q : Q) : Q :=
  let e := ulp_exp q in Qred (inject_Z (rne (q / 2 ^ e)) * 2 ^ e).

Definition b64 (q : Q) : float :=
  match Qcompare q 0 with
  | Eq => 0
  | Gt => round_pos q
  | Lt => - round_pos (- q)
  end.

Definition fadd (x y : float) : float := b64 (x + y).
Definition fsub (x y : float) : float := b64 (x - y).
Definition fmul (x y : float) : float := b64 (x * y).

(** [random.random()]: a 53-bit integer scaled into [[0, 1)].  [k] is the
    integer the generator delivers for this call. *)
Definition random (k : Z) : float :=
  Qred (inject_Z (k mod 2 ^ 53) / inject_Z (2 ^ 53)).

(** [random.uniform(a, b)] is [a + (b - a) * self.random()]. *)
Definition uniform (a b : float) (k : Z) : float :=
  fadd a (fmul (fsub b a) (random k)).

(** [round(x, ndigits)] for a float and [ndigits >= 0]: the decimal with
    [ndigits] digits after the point nearest to the exact value of [x], ties
    to even, read back as a float. *)
Definition round (x : float) (ndigits : nat) : float :=
  let p := inject_Z (10 ^ Z.of_nat ndigits) in
  b64 (inject_Z (rne (x * p)) / p).

(** The float a decimal literal with three digits after the point denotes. *)
Definition decimal3 (n : Z) : float := b64 (inject_Z n / 1000).

(** Exact value of a primitive (hardware) binary64 number, to compare the
    operations above with the kernel's floating-point unit. *)
Definition of_prim (f : PrimFloat.float) : option Q :=
  match FloatOps.Prim2SF f with
  | SpecFloat.S754_zero _ => Some 0
  | SpecFloat.S754_finite s m e =>
      Some (Qred ((if s then -1 else 1) * inject_Z (Zpos m) * 2 ^ e))
  | _ => None
  end.

End Binary64.

Import Binary64.

(* ================================================================== *)
(** * Python values and exceptions *)
(* ================================================================== *)

(** Floats as [json.loads] can deliver them. *)
Inductive pyfloat :=
| Finite (q : float)
| Infinity (negative : bool)
| NaN.

(** The values [json.loads] returns, and the ones [json.dumps] is given.
    A [dict] keeps its items in insertion order. *)
Inductive pyvalue :=
| PyNone
| PyBool (b : bool)
| PyInt (n : Z)
| PyFloat (f : pyfloat)
| PyStr (s : str)
| PyList (items : list pyvalue)
| PyDict (items : list (str * pyvalue)).

(** [type(v).__name__] *)
Definition type_name (v : pyvalue) : string :=
  match v with
  | PyNone => "NoneType"
  | PyBool _ => "bool"
  | PyInt _ => "int"
  | PyFloat _ => "float"
  | PyStr _ => "str"
  | PyList _ => "list"
  | PyDict _ => "dict"
  end.

(** An exception: its class and the text [str(e)] gives. *)
Record exn := Exception { exn_class : string; exn_str : string }.

Definition AttributeError (v : pyvalue) (attr : string) : exn :=
  Exception "AttributeError"
    ("'" ++ type_name v ++ "' object has no attribute '" ++ attr ++ "'").

Definition TypeError (msg : string) : exn := Exception "TypeError" msg.

Definition ValueError (msg : string) : exn := Exception "ValueError" msg.

(** Outcome of an expression that may raise. *)
Definition result (A : Type) : Type := exn + A.

Fixpoint str_eqb (a b : str) : bool :=
  match a, b with
  | [], [] => true
  | x :: a', y :: b' => (x =? y)%N && str_eqb a' b'
  | _, _ => false
  end.

(** Item of a dict by key. *)
Fixpoint dict_lookup (key : str) (items : list (str * pyvalue)) : option pyvalue :=
  match items with
  | [] => None
  | (k, v) :: items' => if str_eqb k key then Some v else dict_lookup key items'
  end.

(** [obj.get(key, default)]: defined by [dict] only. *)
Definition get (obj : pyvalue) (key : str) (default : pyvalue) : result pyvalue :=
  match obj with
  | PyDict items =>
      inr (match dict_lookup key items with
           | Some v => v
           | None => default
           end)
  | _ => inl (AttributeError obj "get")
  end.

(** The elements a [for] statement draws from [obj]: the items of a list,
    the characters of a string, the keys of a dict. *)
Definition iter (obj : pyvalue) : result (list pyvalue) :=
  match obj with
  | PyList items => inr items
  | PyStr s => inr (List.map (fun c => PyStr [c]) s)
  | PyDict items => inr (List.map (fun kv => PyStr (fst kv)) items)
  | _ => inl (TypeError ("'" ++ type_name obj ++ "' object is not iterable"))
  end.

(** The library functions that read text.  Each returns its value or the
    exception it raises, an instance of [Exception]. *)
Class PyLib := {
  (** [int(s)] for a string [s] *)
  int_of_str : string -> result Z;
  (** [data.decode('utf-8')] *)
  decode_utf8 : list byte -> result str;
  (** [json.loads(s)] *)
  json_loads : str -> result pyvalue;
  (** The exception, if any, that keeps [rfile.read(n)] from getting its
      buffer of [n >= 0] bytes: [OverflowError] when [n] does not fit an
      index, [MemoryError] when there is no room for it. *)
  buffer : Z -> option exn
}.

(** [int(x)] where [x] is a header value or [None]. *)
Definition int `{PyLib} (x : option string) : result Z :=
  match x with
  | Some s => int_of_str s
  | None =>
      inl (TypeError
             "int() argument must be a string, a bytes-like object or a real number, not 'NoneType'")
  end.

(* ================================================================== *)
(** * Requests and the connection *)
(* ================================================================== *)

(** What [BaseHTTPRequestHandler] has parsed when it calls a [do_*] method:
    [self.command], [self.path], [self.headers], and the bytes still to be
    read from [self.rfile]. *)
Record request := {
  command : string;
  path : string;
  headers : list (string * string);
  rfile : list byte
}.

Definition lower (c : ascii) : ascii :=
  let n := nat_of_ascii c in
  if ((65 <=? n) && (n <=? 90))%nat then ascii_of_nat (n + 32) else c.

Fixpoint lowercase (s : string) : string :=
  match s with
  | EmptyString => EmptyString
  | String c s' => String (lower c) (lowercase s')
  end.

(** [self.headers[name]]: the first field of that name, compared without
    regard to case; [None] when there is none. *)
Fixpoint headers_get (hs : list (string * string)) (name : string) : option string :=
  match hs with
  | [] => None
  | (k, v) :: hs' =>
      if String.eqb (lowercase k) (lowercase name) then Some v
      else headers_get hs' name
  end.

(** [rfile.read(n)] on the buffered reader of the connection: up to [n]
    bytes, everything when [n] is -1; a length below -1 is refused, and so
    is one for which there is no buffer. *)
Definition read `{PyLib} (data : list byte) (n : Z) : result (list byte) :=
  if n <? -1 then inl (ValueError "read length must be non-negative or -1")
  else if n =? -1 then inr data
  else match buffer n with
       | Some e => inl e
       | None => inr (firstn (Z.to_nat n) data)
       end.

(** What is written to [self.wfile]. *)
Inductive payload :=
| json_dumps (v : pyvalue).  (** [json.dumps(v).encode('utf-8')] *)

(** The calls a handler makes on its connection, in order.  [SendResponse]
    stands for the status line with the [Server] and [Date] fields the
    library adds, [SendError] for the complete error reply the library
    builds. *)
Inductive event :=
| SendResponse (code : Z)
| SendHeader (keyword value : string)
| EndHeaders
| Write (data : payload)
| SendError (code : Z) (message : string).

(** State of a handler run: the integers the random generator will deliver,
    [rng 0] first, and the calls made so far. *)
Record state := {
  rng : nat -> Z;
  wire : list event
}.

(** Computations that read and write the state and may raise. *)
Definition M (A : Type) : Type := state -> result A * state.

Definition ret {A} (a : A) : M A := fun st => (inr a, st).

Definition bind {A B} (m : M A) (f : A -> M B) : M B :=
  fun st =>
    match m st with
    | (inr a, st') => f a st'
    | (inl e, st') => (inl e, st')
    end.

Definition raise {A} (e : exn) : M A := fun st => (inl e, st).

(** Evaluate an expression that may raise. *)
Definition eval {A} (r : result A) : M A :=
  match r with
  | inr a => ret a
  | inl e => raise e
  end.

(** [try: body except Exception as e: handler(e)] *)
Definition try_except {A} (body : M A) (handler : exn -> M A) : M A :=
  fun st =>
    match body st with
    | (inl e, st') => handler e st'
    | r => r
    end.

Declare Scope py_scope.
Delimit Scope py_scope with py.
Notation "x <- m ;; k" := (bind m (fun x => k))
  (at level 61, m at next level, right associativity) : py_scope.
Notation "m ;; k" := (bind m (fun _ => k))
  (at level 61, right associativity) : py_scope.

(** A call on the connection. *)
Definition emit (ev : event) : M unit :=
  fun st => (inr tt, {| rng := rng st; wire := wire st ++ [ev] |}).

(** [random.uniform(a, b)]: takes the next integer of the generator. *)
Definition random_uniform (a b : float) : M float :=
  fun st =>
    (inr (uniform a b (rng st 0%nat)),
     {| rng := fun n => rng st (S n); wire := wire st |}).

Definition send_response (code : Z) : M unit := emit (SendResponse code).
Definition send_header (keyword value : string) : M unit :=
  emit (SendHeader keyword value).
Definition end_headers : M unit := emit EndHeaders.
Definition wfile_write (data : payload) : M unit := emit (Write data).
Definition send_error (code : Z) (message : string) : M unit :=
  emit (SendError code message).

(* ================================================================== *)
(** * The handler *)
(* ================================================================== *)

Section Handler.

Context `{PyLib}.

Local Open Scope py_scope.

(** Lines 29-38: the branch taken for one line and its draw.  [line.strip()]
    is the first thing evaluated; only a [str] has that attribute. *)
Definition line_prob (line : pyvalue) : M float :=
  match line with
  | PyStr line =>
      if negb (truthy (strip line)) then
        random_uniform (b64 0.1) (b64 0.3)
      else if startswith (strip line) (py "//")
              || startswith (strip line) (py "#") then
        random_uniform (b64 0.2) (b64 0.5)
      else if contains line (py "import") || contains line (py "from") then
        random_uniform (b64 0.7) (b64 0.9)
      else if contains line (py "function") || contains line (py "def ")
              || contains line (py "class ") then
        random_uniform (b64 0.6) (b64 0.8)
      else
        random_uniform (b64 0.3) (b64 0.7)
  | _ => raise (AttributeError line "strip")
  end.

(** Lines 27-40: the loop, with [probabilities] as built so far. *)
Fixpoint for_line_in (lines : list pyvalue) (probabilities : list float)
  : M (list float) :=
  match lines with
  | [] => ret probabilities
  | line :: lines' =>
      prob <- line_prob line ;;
      for_line_in lines' (probabilities ++ [round prob 3])
  end.

(** Lines 21-40: from the bytes read to the list of probabilities. *)
Definition predict (post_data : list byte) : M (list float) :=
  text <- eval (decode_utf8 post_data) ;;
  request_data <- eval (json_loads text) ;;
  lines <- eval (get request_data (py "lines") (PyList [])) ;;
  items <- eval (iter lines) ;;
  for_line_in items [].

Definition floats (l : list float) : pyvalue :=
  PyList (List.map (fun p => PyFloat (Finite p)) l).

Definition do_POST (self : request) : M unit :=
  if String.eqb (path self) "/predict" then
    content_length <- eval (int (headers_get (headers self) "Content-Length")) ;;
    post_data <- eval (read (rfile self) content_length) ;;
    try_except
      (probabilities <- predict post_data ;;
       let response := PyDict [(py "probabilities", floats probabilities)] in
       send_response 200 ;;
       send_header "Content-Type" "application/json" ;;
       send_header "Access-Control-Allow-Origin" "*" ;;
       send_header "Access-Control-Allow-Methods" "POST, OPTIONS" ;;
       send_header "Access-Control-Allow-Headers" "Content-Type" ;;
       end_headers ;;
       wfile_write (json_dumps response))
      (fun e =>
         send_response 500 ;;
         send_header "Content-Type" "application/json" ;;
         end_headers ;;
         let error_response := PyDict [(py "error", PyStr (py (exn_str e)))] in
         wfile_write (json_dumps error_response))
  else
    send_response 404 ;;
    end_headers.

Definition do_OPTIONS (self : request) : M unit :=
  send_response 200 ;;
  send_header "Access-Control-Allow-Origin" "*" ;;
  send_header "Access-Control-Allow-Methods" "POST, OPTIONS" ;;
  send_header "Access-Control-Allow-Headers" "Content-Type" ;;
  end_headers.

(** The methods [LineSurvivalHandler] defines. *)
Definition LineSurvivalHandler : list (string * (request -> M unit)) :=
  [("do_POST", do_POST); ("do_OPTIONS", do_OPTIONS)].

Fixpoint getattr {A} (methods : list (string * A)) (name : string) : option A :=
  match methods with
  | [] => None
  | (n, m) :: methods' => if String.eqb n name then Some m else getattr methods' name
  end.

(** How [BaseHTTPRequestHandler.handle_one_request] calls the handler: the
    method named after the request's command, and the library's reply 501
    when the class has none. *)
Definition handle_one_request (self : request) : M unit :=
  let mname := ("do_" ++ command self)%string in
  match getattr LineSurvivalHandler mname with
  | None =>
      send_error 501 ("Unsupported method ('" ++ command self ++ "')")%string
  | Some method => method self
  end.

(** One request on a fresh connection, with [gen] as the random source:
    the exception that left the handler, if any, and the calls made. *)
Definition serve (self : request) (gen : nat -> Z) : result unit * list event :=
  let (r, st) := handle_one_request self {| rng := gen; wire := [] |} in
  (r, wire st).

(** The body of a request, as the handler reads it, is [post_data]: the
    length header is an integer, the read succeeds, and [post_data] are the
    bytes read. *)
Definition body_is (self : request) (post_data : list byte) : Prop :=
  exists n,
    int (headers_get (headers self) "Content-Length") = inr n
    /\ read (rfile self) n = inr post_data.

(** The body of a request is the JSON object [items]: it decodes and loads
    to that dict. *)
Definition body_is_object (self : request) (items : list (str * pyvalue)) : Prop :=
  exists post_data text,
    body_is self post_data
    /\ decode_utf8 post_data = inr text
    /\ json_loads text = inr (PyDict items).

End Handler.

(** ** Reading a reply *)

(** Status code of the reply. *)
Fixpoint status (w : list event) : option Z :=
  match w with
  | [] => None
  | SendResponse code :: _ => Some code
  | SendError code _ :: _ => Some code
  | _ :: w' => status w'
  end.

(** What the handler wrote to [wfile]: the body of its reply. *)
Fixpoint body (w : list event) : list payload :=
  match w with
  | [] => []
  | Write data :: w' => data :: body w'
  | _ :: w' => body w'
  end.

(** The reply has the header field [keyword: value]. *)
Definition has_header (w : list event) (keyword value : string) : Prop :=
  In (SendHeader keyword value) w.

Definition cors_headers (w : list event) : Prop :=
  has_header w "Access-Control-Allow-Origin" "*"
  /\ has_header w "Access-Control-Allow-Methods" "POST, OPTIONS"
  /\ has_header w "Access-Control-Allow-Headers" "Content-Type".

(** The score the handler returns for a line of text when the generator
    delivers [k]: the value appended to [probabilities] at line 40. *)
Definition score (line : str) (k : Z) : result float :=
  match line_prob (PyStr line) {| rng := fun _ => k; wire := [] |} with
  | (inr prob, _) => inr (round prob 3)
  | (inl e, _) => inl e
  end.

(* ================================================================== *)
(** * The rules as the specification lists them *)
(* ================================================================== *)

Inductive rule := Empty | Comment | Import | Defn | Other.

(** Whether a rule matches a line, in the specification's words. *)
Definition applies (r : rule) (line : str) : bool :=
  match r with
  | Empty => forallb isspace line
  | Comment =>
      startswith (strip line) (py "//") || startswith (strip line) (py "#")
  | Import => contains line (py "import") || contains line (py "from")
  | Defn =>
      contains line (py "function") || contains line (py "def ")
      || contains line (py "class ")
  | Other => true
  end.

(** The fixed priority order. *)
Definition priority : list rule := [Empty; Comment; Import; Defn; Other].

(** The first rule that matches. *)
Definition classify (line : str) : option rule :=
  find (fun r => applies r line) priority.

(** A float with exactly three decimal places: the float of a decimal
    [n / 1000] that no other such decimal denotes, and that rounding to
    three places leaves as it is. *)
Definition three_decimals (p : float) : Prop :=
  exists n : Z,
    p = decimal3 n
    /\ (forall m, decimal3 m = decimal3 n -> m = n)
    /\ round p 3 = p.

(** End points of the interval of a rule, as decimals. *)
Definition interval (r : rule) : Q * Q :=
  match r with
  | Empty => (0.1, 0.3)
  | Comment => (0.2, 0.5)
  | Import => (0.7, 0.9)
  | Defn => (0.6, 0.8)
  | Other => (0.3, 0.7)
  end%Q.

(** The floats the end points denote. *)
Definition lo (r : rule) : float := b64 (fst (interval r)).
Definition hi (r : rule) : float := b64 (snd (interval r)).

(** A parsed request body fails in the handler with exception [e]:
    the cases in which lines 21-40 raise. *)
Inductive malformed `{PyLib} (post_data : list byte) : exn -> Prop :=
| not_utf8 e :
    decode_utf8 post_data = inl e ->
    malformed post_data e
| not_json text e :
    decode_utf8 post_data = inr text ->
    json_loads text = inl e ->
    malformed post_data e
| not_an_object text v :
    decode_utf8 post_data = inr text ->
    json_loads text = inr v ->
    (forall items, v <> PyDict items) ->
    malformed post_data (AttributeError v "get")
| lines_not_iterable text v lines e :
    decode_utf8 post_data = inr text ->
    json_loads text = inr v ->
    get v (py "lines") (PyList []) = inr lines ->
    iter lines = inl e ->
    malformed post_data e
| line_not_str text v lines items before bad after :
    decode_utf8 post_data = inr text ->
    json_loads text = inr v ->
    get v (py "lines") (PyList []) = inr lines ->
    iter lines = inr items ->
    items = (List.map PyStr before ++ bad :: after)%list ->
    (forall s, bad <> PyStr s) ->
    malformed post_data (AttributeError bad "strip").

(* ================================================================== *)
(** * The replies of the wire protocol *)
(* ================================================================== *)

(** Success: status 200, the content type, the three CORS fields, and the
    object [{"probabilities": [...]}] as body. *)
Definition success_reply (probabilities : list float) : list event :=
  [ SendResponse 200;
    SendHeader "Content-Type" "application/json";
    SendHeader "Access-Control-Allow-Origin" "*";
    SendHeader "Access-Control-Allow-Methods" "POST, OPTIONS";
    SendHeader "Access-Control-Allow-Headers" "Content-Type";
    EndHeaders;
    Write (json_dumps (PyDict [(py "probabilities", floats probabilities)])) ].

(** Failure: status 500, the content type, and the object
    [{"error": str(e)}] as body. *)
Definition failure_reply (e : exn) : list event :=
  [ SendResponse 500;
    SendHeader "Content-Type" "application/json";
    EndHeaders;
    Write (json_dumps (PyDict [(py "error", PyStr (py (exn_str e)))])) ].

(** Not found: status 404 and nothing else. *)
Definition not_found_reply : list event :=
  [ SendResponse 404; EndHeaders ].

(** Preflight: status 200 and the three CORS fields. *)
Definition preflight_reply : list event :=
  [ SendResponse 200;
    SendHeader "Access-Control-Allow-Origin" "*";
    SendHeader "Access-Control-Allow-Methods" "POST, OPTIONS";
    SendHeader "Access-Control-Allow-Headers" "Content-Type";
    EndHeaders ].

Definition is_str (v : pyvalue) : bool :=
  match v with PyStr _ => true | _ => false end.

(* ================================================================== *)
(** * A small library instance, for concrete runs *)
(* ================================================================== *)

Module Sample.

(** [int] on strings of decimal digits, with or without a minus sign. *)
Fixpoint digits (s : string) (acc : Z) : option Z :=
  match s with
  | EmptyString => Some acc
  | String c s' =>
      let n := Z.of_nat (nat_of_ascii c) in
      if (48 <=? n) && (n <=? 57) then digits s' (10 * acc + (n - 48)) else None
  end.

Definition parse_int (s : string) : result Z :=
  match s with
  | String "-" (String c s') =>
      match digits (String c s') 0 with
      | Some n => inr (- n)
      | None =>
          inl (Exception "ValueError"
                 ("invalid literal for int() with base 10: '" ++ s ++ "'"))
      end
  | _ =>
      match s, digits s 0 with
      | String _ _, Some n => inr n
      | _, _ =>
          inl (Exception "ValueError"
                 ("invalid literal for int() with base 10: '" ++ s ++ "'"))
      end
  end.

(** Lengths that fit an index get their buffer. *)
Definition room (n : Z) : option exn :=
  if n <? 2 ^ 63 then None
  else Some (Exception "OverflowError"
               "cannot fit 'int' into an index-sized integer").

(** [decode] on ASCII. *)
Definition decode_ascii (data : list byte) : result str :=
  if forallb (fun b => (Byte.to_N b <? 128)%N) data
  then inr (List.map Byte.to_N data)
  else inl (Exception "UnicodeDecodeError"
              "'utf-8' codec can't decode bytes: invalid start byte").

(** A JSON text written with ['] in place of the double quote. *)
Definition json (s : string) : list byte :=
  List.map (fun b => match b with x27 => x22 | _ => b end)
           (list_byte_of_string s).

Definition text (s : string) : str := List.map Byte.to_N (json s).

(** [json.loads] on the documents of this table. *)
Definition documents : list (string * pyvalue) :=
  [ ("{}", PyDict []);
    ("{'other': 1}", PyDict [(py "other", PyInt 1)]);
    ("{'lines': ['', '# comment', 'import os', 'def foo():', 'x = 1']}",
     PyDict [(py "lines",
              PyList [PyStr (py ""); PyStr (py "# comment");
                      PyStr (py "import os"); PyStr (py "def foo():");
                      PyStr (py "x = 1")])]);
    ("{'lines': ['x = 1'], 'file': 'a.py'}",
     PyDict [(py "lines", PyList [PyStr (py "x = 1")]);
             (py "file", PyStr (py "a.py"))]);
    ("{'lines': ['x = 1']}",
     PyDict [(py "lines", PyList [PyStr (py "x = 1")])]);
    ("{'lines': ['x = 1', 2, null]}",
     PyDict [(py "lines", PyList [PyStr (py "x = 1"); PyInt 2; PyNone])]);
    ("[1, 2]", PyList [PyInt 1; PyInt 2]);
    ("{'lines': 5}", PyDict [(py "lines", PyInt 5)]) ].

Fixpoint find_document (t : str) (docs : list (string * pyvalue)) : option pyvalue :=
  match docs with
  | [] => None
  | (s, v) :: docs' => if str_eqb (text s) t then Some v else find_document t docs'
  end.

Definition loads (t : str) : result pyvalue :=
  match find_document t documents with
  | Some v => inr v
  | None =>
      inl (Exception "JSONDecodeError" "Expecting value: line 1 column 1 (char 0)")
  end.

Definition lib : PyLib :=
  {| int_of_str := parse_int;
     decode_utf8 := decode_ascii;
     json_loads := loads;
     buffer := room |}.

(** A POST request that carries [body] with its length declared. *)
Definition post (path : string) (body : string) : request :=
  {| command := "POST";
     path := path;
     headers := [("Host", "localhost:8080");
                 ("Content-Type", "application/json");
                 ("Content-Length",
                  NilEmpty.string_of_uint (Nat.to_uint (List.length (json body))))];
     rfile := json body |}.

(** A POST that carries [body] and declares [length] as its length. *)
Definition post_declaring (length : option string) (body : string) : request :=
  {| command := "POST";
     path := "/predict";
     headers := ("Host", "localhost:8080")
                :: match length with
                   | Some l => [("Content-Length", l)]
                   | None => []
                   end;
     rfile := json body |}.

(** A request without a body. *)
Definition bare (command path : string) : request :=
  {| command := command; path := path;
     headers := [("Host", "localhost:8080")]; rfile := [] |}.

(** The scenario of the specification. *)
Definition five_lines : list str :=
  [py ""; py "# comment"; py "import os"; py "def foo():"; py "x = 1"].

Definition five_lines_body : string :=
  "{'lines': ['', '# comment', 'import os', 'def foo():', 'x = 1']}".

(** A random source: the integers [seed], [seed + step], ... *)
Definition gen (seed step : Z) : nat -> Z :=
  fun i => seed + step * Z.of_nat i.

End Sample.

(* ================================================================== *)
(** * The server loop *)
(* ================================================================== *)

(** The random generator as [handle_one_request] leaves it. *)
Definition generator_after `{PyLib} (self : request) (gen : nat -> Z) : nat -> Z :=
  rng (snd (handle_one_request self {| rng := gen; wire := [] |})).

(** [httpd.serve_forever()] in [run_server], on the requests that arrive
    before the interrupt, in order.  [HTTPServer] handles one request at a
    time, each on a connection and with a handler object of its own; when an
    exception leaves the handler the library prints it and goes on with the
    next request.  The generator of the [random] module is the only thing
    the requests share. *)
Fixpoint serve_forever `{PyLib} (requests : list request) (gen : nat -> Z)
  : list (result unit * list event) :=
  match requests with
  | [] => []
  | self :: requests' =>
      serve self gen :: serve_forever requests' (generator_after self gen)
  end.

(** The order of the calls of a reply: one status line, header fields, the
    end of the headers, then the writes. *)
Definition in_order (w : list event) : Prop :=
  exists code fields payloads,
    w = (SendResponse code
         :: List.map (fun kv => SendHeader (fst kv) (snd kv)) fields
         ++ EndHeaders :: List.map Write payloads)%list
    /\ (List.length payloads <= 1)%nat.

(** A second library instance, with documents whose [lines] is a string, an
    object, a list with a bad element, and the scenario of the
    specification. *)
Module Cases.

Definition documents : list (string * pyvalue) :=
  [ ("{'lines': 'a #'}", PyDict [(py "lines", PyStr (py "a #"))]);
    ("{'lines': {'def f(x):': 1, '': 2}}",
     PyDict [(py "lines",
              PyDict [(py "def f(x):", PyInt 1); (py "", PyInt 2)])]);
    ("{'lines': ['import os', 'x = 1', 7, 'y = 2']}",
     PyDict [(py "lines",
              PyList [PyStr (py "import os"); PyStr (py "x = 1"); PyInt 7;
                      PyStr (py "y = 2")])]);
    (Sample.five_lines_body,
     PyDict [(py "lines", PyList (List.map PyStr Sample.five_lines))]) ].

Definition loads (t : str) : result pyvalue :=
  match Sample.find_document t documents with
  | Some v => inr v
  | None =>
      inl (Exception "JSONDecodeError" "Expecting value: line 1 column 1 (char 0)")
  end.

Definition lib : PyLib :=
  {| int_of_str := Sample.parse_int;
     decode_utf8 := Sample.decode_ascii;
     json_loads := loads;
     buffer := Sample.room |}.

(** A POST that declares [n] bytes and carries [body] followed by [extra]. *)
Definition post_with_length (n : nat) (body extra : string) : request :=
  {| command := "POST";
     path := "/predict";
     headers := [("Content-Length", NilEmpty.string_of_uint (Nat.to_uint n))];
     rfile := (Sample.json body ++ Sample.json extra)%list |}.

End Cases.

(* ================================================================== *)
(** * Facts about rounding *)
(* ================================================================== *)

Section Rounding.

Local Open Scope Q_scope.

Lemma rne_cases (q : Q) :
  let f := Qfloor q in
  (rne q = f /\ q - inject_Z f <= 1 # 2 /\ (q - inject_Z f == 1 # 2 -> Z.even f = true)) \/
  (rne q = (f + 1)%Z /\ 1 # 2 <= q - inject_Z f /\ (q - inject_Z f == 1 # 2 -> Z.even f = false)).
Proof.
  intro f. unfold rne. fold f.
  destruct (Qcompare_spec (q - inject_Z f) (1 # 2)) as [E | L | G].
  - destruct (Z.even f) eqn:Ev.
    + left. repeat split; auto. rewrite E. apply Qle_refl.
    + right. repeat split; auto. rewrite E. apply Qle_refl.
  - left. repeat split; [lra | intro E; lra].
  - right. repeat split; [lra | intro E; lra].
Qed.

Lemma rne_mono (x y : Q) : x <= y -> (rne x <= rne y)%Z.
Proof.
  intro Hxy.
  pose proof (Qfloor_resp_le x y Hxy) as Hf.
  pose proof (Qfloor_le x) as Hx1. pose proof (Qlt_floor x) as Hx2.
  pose proof (Qfloor_le y) as Hy1. pose proof (Qlt_floor y) as Hy2.
  rewrite inject_Z_plus in Hx2, Hy2.
  destruct (rne_cases x) as [(Rx & Bx & Tx) | (Rx & Bx & Tx)];
  destruct (rne_cases y) as [(Ry & By & Ty) | (Ry & By & Ty)];
  rewrite Rx, Ry; try lia.
  destruct (Z.eq_dec (Qfloor x) (Qfloor y)) as [E | NE]; [ | lia ].
  exfalso. rewrite E in *.
  assert (Hx : x - inject_Z (Qfloor y) == 1 # 2) by lra.
  assert (Hy : y - inject_Z (Qfloor y) == 1 # 2) by lra.
  specialize (Tx Hx). specialize (Ty Hy). congruence.
Qed.

Lemma rne_inject_Z (z : Z) : rne (inject_Z z) = z.
Proof.
  unfold rne. rewrite Qfloor_Z.
  destruct (Qcompare_spec (inject_Z z - inject_Z z) (1 # 2)); try lra. reflexivity.
Qed.

Lemma rne_error (q : Q) : inject_Z (rne q) - (1 # 2) <= q <= inject_Z (rne q) + (1 # 2).
Proof.
  pose proof (Qfloor_le q) as H1. pose proof (Qlt_floor q) as H2.
  rewrite inject_Z_plus in H2.
  destruct (rne_cases q) as [(R & B & _) | (R & B & _)]; rewrite R.
  - lra.
  - rewrite inject_Z_plus. change (inject_Z 1) with 1 in *. lra.
Qed.

Lemma rne_comp (x y : Q) : x == y -> rne x = rne y.
Proof.
  intro E. apply Z.le_antisymm; apply rne_mono; rewrite E; apply Qle_refl.
Qed.

Lemma two_pow_pos (e : Z) : 0 < 2 ^ e.
Proof. apply Qpower_0_lt. reflexivity. Qed.

Lemma two_pow_succ (e : Z) : 2 ^ (e + 1) == 2 * 2 ^ e.
Proof. rewrite Qpower_plus by (intro H; discriminate H). change (2 ^ 1) with 2. ring. Qed.

Lemma two_pow_le (a b : Z) : (a <= b)%Z -> 2 ^ a <= 2 ^ b.
Proof. intro H. apply Qpower_le_compat_l; [exact H | discriminate]. Qed.

Lemma two_pow_lt_inv (a b : Z) : 2 ^ a < 2 ^ b -> (a < b)%Z.
Proof.
  intro H. destruct (Z_lt_le_dec a b) as [L | G]; [exact L | ].
  apply two_pow_le in G. lra.
Qed.

Lemma ilog2_spec (q : Q) : 0 < q -> 2 ^ ilog2 q <= q < 2 ^ (ilog2 q + 1).
Proof.
  intro Hq. destruct q as [n d].
  assert (Hn : (0 < n)%Z) by (unfold Qlt in Hq; simpl in Hq; lia).
  unfold ilog2. cbn [Qnum Qden].
  set (a := Z.log2 n). set (b := Z.log2 (Zpos d)).
  destruct (Z.log2_spec n Hn) as [Ha1 Ha2]. fold a in Ha1, Ha2.
  destruct (Z.log2_spec (Zpos d) (Pos2Z.is_pos d)) as [Hb1 Hb2]. fold b in Hb1, Hb2.
  assert (Ha0 : (0 <= a)%Z) by apply Z.log2_nonneg.
  assert (Hb0 : (0 <= b)%Z) by apply Z.log2_nonneg.
  assert (Qa1 : 2 ^ a <= inject_Z n).
  { rewrite <- (Zpower_Qpower 2 a Ha0). rewrite <- Zle_Qle. exact Ha1. }
  assert (Qa2 : inject_Z n < 2 * 2 ^ a).
  { rewrite <- two_pow_succ. rewrite <- (Zpower_Qpower 2 (a + 1)) by lia.
    rewrite <- Zlt_Qlt. replace (a + 1)%Z with (Z.succ a) by lia. exact Ha2. }
  assert (Qb1 : 2 ^ b <= inject_Z (Zpos d)).
  { rewrite <- (Zpower_Qpower 2 b Hb0). rewrite <- Zle_Qle. exact Hb1. }
  assert (Qb2 : inject_Z (Zpos d) < 2 * 2 ^ b).
  { rewrite <- two_pow_succ. rewrite <- (Zpower_Qpower 2 (b + 1)) by lia.
    rewrite <- Zlt_Qlt. replace (b + 1)%Z with (Z.succ b) by lia. exact Hb2. }
  assert (Hd : 0 < inject_Z (Zpos d)) by (rewrite <- (Zlt_Qlt 0); apply Pos2Z.is_pos).
  assert (Eq : n # d == inject_Z n / inject_Z (Zpos d)) by apply Qmake_Qdiv.
  assert (Em : (n # d) * inject_Z (Zpos d) == inject_Z n).
  { rewrite Eq. field. lra. }
  pose proof (two_pow_pos a) as Pa. pose proof (two_pow_pos b) as Pb.
  assert (Ep : 2 ^ (a - b) * 2 ^ b == 2 ^ a).
  { rewrite <- Qpower_plus by (intro H; discriminate H). replace (a - b + b)%Z with a by lia. reflexivity. }
  pose proof (two_pow_pos (a - b)) as Pab.
  destruct (Qle_bool (2 ^ (a - b)) (n # d)) eqn:C.
  - apply Qle_bool_iff in C. split; [exact C | ].
    rewrite two_pow_succ. nra.
  - assert (C' : n # d < 2 ^ (a - b)).
    { apply Qnot_le_lt. intro H. apply Qle_bool_iff in H. congruence. }
    replace (a - b - 1 + 1)%Z with (a - b)%Z by lia. split; [ | exact C'].
    assert (E1 : 2 ^ (a - b) == 2 * 2 ^ (a - b - 1)).
    { rewrite <- two_pow_succ. replace (a - b - 1 + 1)%Z with (a - b)%Z by lia. reflexivity. }
    pose proof (two_pow_pos (a - b - 1)) as Pab1.
    nra.
Qed.

Lemma ilog2_mono (x y : Q) : 0 < x -> x <= y -> (ilog2 x <= ilog2 y)%Z.
Proof.
  intros Hx Hxy.
  destruct (ilog2_spec x Hx) as [X1 _].
  destruct (ilog2_spec y) as [_ Y2]; [lra | ].
  assert (H : 2 ^ ilog2 x < 2 ^ (ilog2 y + 1)) by lra.
  apply two_pow_lt_inv in H. lia.
Qed.

Lemma ulp_exp_mono (x y : Q) : 0 < x -> x <= y -> (ulp_exp x <= ulp_exp y)%Z.
Proof.
  intros Hx Hxy. unfold ulp_exp. pose proof (ilog2_mono x y Hx Hxy). lia.
Qed.

Lemma two_pow_inject (n : Z) : (0 <= n)%Z -> inject_Z (2 ^ n) == 2 ^ n.
Proof. intro H. apply (Zpower_Qpower 2 n H). Qed.

Lemma round_pos_eq (q : Q) :
  round_pos q == inject_Z (rne (q / 2 ^ ulp_exp q)) * 2 ^ ulp_exp q.
Proof. unfold round_pos. apply Qred_correct. Qed.

Lemma scaled_lt (q : Q) : 0 < q -> q / 2 ^ ulp_exp q < 2 ^ 53.
Proof.
  intro Hq. destruct (ilog2_spec q Hq) as [_ H2].
  pose proof (two_pow_pos (ulp_exp q)) as P.
  apply Qlt_shift_div_r; [exact P | ].
  rewrite <- Qpower_plus by (intro H; discriminate H).
  eapply Qlt_le_trans; [exact H2 | ].
  apply two_pow_le. unfold ulp_exp. lia.
Qed.

Lemma scaled_ge (q : Q) : 0 < q -> (-1074 < ulp_exp q)%Z -> 2 ^ 52 <= q / 2 ^ ulp_exp q.
Proof.
  intros Hq He. destruct (ilog2_spec q Hq) as [H1 _].
  pose proof (two_pow_pos (ulp_exp q)) as P.
  apply Qle_shift_div_l; [exact P | ].
  rewrite <- Qpower_plus by (intro H; discriminate H).
  eapply Qle_trans; [ | exact H1].
  apply two_pow_le. unfold ulp_exp in *. lia.
Qed.

Lemma round_pos_nonneg (q : Q) : 0 < q -> 0 <= round_pos q.
Proof.
  intro Hq. rewrite round_pos_eq.
  pose proof (two_pow_pos (ulp_exp q)) as P.
  assert (H : (0 <= rne (q / 2 ^ ulp_exp q))%Z).
  { rewrite <- (rne_inject_Z 0). apply rne_mono.
    apply Qle_shift_div_l; [exact P | ]. change (inject_Z 0) with 0. lra. }
  rewrite Zle_Qle in H. change (inject_Z 0) with 0 in H. nra.
Qed.

Lemma round_pos_mono (x y : Q) : 0 < x -> x <= y -> round_pos x <= round_pos y.
Proof.
  intros Hx Hxy. assert (Hy : 0 < y) by lra.
  rewrite !round_pos_eq.
  pose proof (ulp_exp_mono x y Hx Hxy) as He.
  pose proof (two_pow_pos (ulp_exp x)) as Px.
  pose proof (two_pow_pos (ulp_exp y)) as Py.
  destruct (Z.eq_dec (ulp_exp x) (ulp_exp y)) as [E | NE].
  - rewrite E in *.
    assert (H : (rne (x / 2 ^ ulp_exp y) <= rne (y / 2 ^ ulp_exp y))%Z).
    { apply rne_mono. apply Qmult_le_compat_r; [exact Hxy | ].
      apply Qlt_le_weak. apply Qinv_lt_0_compat. exact Py. }
    rewrite Zle_Qle in H. nra.
  - assert (Hlt : (ulp_exp x < ulp_exp y)%Z) by lia.
    assert (Hx53 : (rne (x / 2 ^ ulp_exp x) <= 2 ^ 53)%Z).
    { rewrite <- (rne_inject_Z (2 ^ 53)). apply rne_mono.
      rewrite two_pow_inject by lia. apply Qlt_le_weak. apply scaled_lt. exact Hx. }
    assert (Hy52 : (2 ^ 52 <= rne (y / 2 ^ ulp_exp y))%Z).
    { rewrite <- (rne_inject_Z (2 ^ 52)). apply rne_mono.
      rewrite two_pow_inject by lia. apply scaled_ge; [exact Hy | ].
      unfold ulp_exp in *. lia. }
    rewrite Zle_Qle in Hx53, Hy52.
    rewrite two_pow_inject in Hx53, Hy52 by lia.
    assert (Hs : 2 * 2 ^ ulp_exp x <= 2 ^ ulp_exp y).
    { rewrite <- two_pow_succ. apply two_pow_le. lia. }
    assert (E53 : (2:Q) ^ 53 == 2 * 2 ^ 52) by reflexivity.
    pose proof (two_pow_pos 52) as P52.
    apply Qle_trans with (2 ^ 53 * 2 ^ ulp_exp x); [nra | ].
    apply Qle_trans with (2 ^ 52 * 2 ^ ulp_exp y); [nra | nra].
Qed.

Lemma b64_mono (x y : Q) : x <= y -> b64 x <= b64 y.
Proof.
  intro Hxy. unfold b64.
  destruct (Qcompare_spec x 0) as [Ex | Lx | Gx];
  destruct (Qcompare_spec y 0) as [Ey | Ly | Gy]; try lra.
  - apply round_pos_nonneg. exact Gy.
  - pose proof (round_pos_nonneg (- x)). lra.
  - assert (H : round_pos (- y) <= round_pos (- x)) by (apply round_pos_mono; lra). lra.
  - pose proof (round_pos_nonneg (- x)). pose proof (round_pos_nonneg y). lra.
  - apply round_pos_mono; assumption.
Qed.

Lemma b64_zero : b64 0 = 0.
Proof. reflexivity. Qed.

Lemma b64_nonneg (q : Q) : 0 <= q -> 0 <= b64 q.
Proof. intro Hq. rewrite <- b64_zero. apply b64_mono. exact Hq. Qed.

Lemma round_mono (x y : float) (ndigits : nat) :
  x <= y -> round x ndigits <= round y ndigits.
Proof.
  intro Hxy. unfold round.
  set (p := inject_Z (10 ^ Z.of_nat ndigits)).
  assert (Hp : 0 < p).
  { unfold p. rewrite <- (Zlt_Qlt 0). apply Z.pow_pos_nonneg; lia. }
  apply b64_mono.
  assert (H : (rne (x * p) <= rne (y * p))%Z) by (apply rne_mono; nra).
  rewrite Zle_Qle in H.
  apply Qmult_le_compat_r; [exact H | ].
  apply Qlt_le_weak, Qinv_lt_0_compat, Hp.
Qed.

Lemma random_range (k : Z) : 0 <= random k <= 1.
Proof.
  unfold random. rewrite Qred_correct.
  pose proof (Z.mod_pos_bound k (2 ^ 53) ltac:(lia)) as [H0 H1].
  assert (Hp : 0 < inject_Z (2 ^ 53)) by (rewrite <- (Zlt_Qlt 0); lia).
  apply Z.lt_le_incl in H1. rewrite Zle_Qle in H0, H1.
  change (inject_Z 0) with 0 in H0.
  split.
  - apply Qle_shift_div_l; [exact Hp | lra].
  - apply Qle_shift_div_r; [exact Hp | lra].
Qed.

(** The draw of [random.uniform(a, b)] between the two values it takes when
    [random()] is replaced by 0 and by 1. *)
Lemma uniform_range (a b : float) (k : Z) :
  a <= b ->
  b64 a <= uniform a b k <= b64 (a + b64 (fsub b a)).
Proof.
  intro Hab. unfold uniform, fadd, fmul.
  pose proof (random_range k) as [R0 R1].
  assert (Hd : 0 <= fsub b a) by (apply b64_nonneg; lra).
  assert (L : 0 <= b64 (fsub b a * random k)) by (apply b64_nonneg; nra).
  assert (U : b64 (fsub b a * random k) <= b64 (fsub b a)) by (apply b64_mono; nra).
  split; apply b64_mono; lra.
Qed.

End Rounding.

(* ================================================================== *)
(** * Facts about strings and the choice of a branch *)
(* ================================================================== *)

Section Classification.

Lemma lstrip_nil (s : str) : lstrip s = [] <-> forallb isspace s = true.
Proof.
  induction s as [ | c s IH]; simpl.
  - tauto.
  - destruct (isspace c); simpl.
    + exact IH.
    + split; discriminate.
Qed.

Lemma forallb_isspace_lstrip (s : str) :
  forallb isspace (lstrip s) = forallb isspace s.
Proof.
  induction s as [ | c s IH]; simpl; [reflexivity | ].
  destruct (isspace c) eqn:E; simpl; [exact IH | ].
  rewrite E. reflexivity.
Qed.

Lemma forallb_rev {A} (f : A -> bool) (l : list A) :
  forallb f (rev l) = forallb f l.
Proof.
  induction l as [ | a l IH]; simpl; [reflexivity | ].
  rewrite forallb_app, IH. simpl. rewrite andb_true_r. apply andb_comm.
Qed.

(** [not line.strip()] holds exactly for the lines made of whitespace. *)
Lemma truthy_strip (s : str) : truthy (strip s) = negb (forallb isspace s).
Proof.
  unfold strip, rstrip.
  destruct (forallb isspace s) eqn:E.
  - apply lstrip_nil in E. rewrite E. reflexivity.
  - destruct (rev (lstrip (rev (lstrip s)))) as [ | c t] eqn:R; [ | reflexivity].
    exfalso.
    apply (f_equal (@rev _)) in R. rewrite rev_involutive in R. simpl in R.
    apply lstrip_nil in R.
    rewrite forallb_rev, forallb_isspace_lstrip in R. congruence.
Qed.

(** The branch [line_prob] takes is the one of the first matching rule. *)
Lemma line_prob_classify (line : str) (st : state) :
  exists r,
    classify line = Some r
    /\ line_prob (PyStr line) st = random_uniform (lo r) (hi r) st.
Proof.
  unfold line_prob, classify, priority, find, applies.
  rewrite truthy_strip, negb_involutive.
  destruct (forallb isspace line); [exists Empty; split; reflexivity | ].
  destruct (startswith (strip line) (py "//") || startswith (strip line) (py "#"));
    [exists Comment; split; reflexivity | ].
  destruct (contains line (py "import") || contains line (py "from"));
    [exists Import; split; reflexivity | ].
  destruct (contains line (py "function") || contains line (py "def ")
            || contains line (py "class "));
    [exists Defn; split; reflexivity | ].
  exists Other; split; reflexivity.
Qed.

Lemma score_classify (line : str) (k : Z) :
  exists r,
    classify line = Some r
    /\ score line k = inr (round (uniform (lo r) (hi r) k) 3).
Proof.
  destruct (line_prob_classify line {| rng := fun _ => k; wire := [] |})
    as (r & C & E).
  exists r. split; [exact C | ].
  unfold score. rewrite E. reflexivity.
Qed.

End Classification.

Section Scores.

Local Open Scope Q_scope.

Lemma interval_ordered (r : rule) : lo r <= hi r.
Proof. destruct r; apply Qle_bool_imp_le; vm_compute; reflexivity. Qed.

Lemma round_lo (r : rule) : round (b64 (lo r)) 3 = lo r.
Proof. destruct r; vm_compute; reflexivity. Qed.

Lemma round_hi (r : rule) : round (b64 (lo r + b64 (fsub (hi r) (lo r)))) 3 = hi r.
Proof. destruct r; vm_compute; reflexivity. Qed.

(** A rounded draw stays within the closed interval of its rule. *)
Lemma rounded_draw_range (r : rule) (k : Z) :
  lo r <= round (uniform (lo r) (hi r) k) 3 <= hi r.
Proof.
  destruct (uniform_range (lo r) (hi r) k (interval_ordered r)) as [L U].
  split.
  - rewrite <- (round_lo r) at 1. apply round_mono. exact L.
  - rewrite <- (round_hi r) at 2. apply round_mono. exact U.
Qed.


Lemma round_decimal3 (x : float) : round x 3 = decimal3 (rne (x * 1000)).
Proof. reflexivity. Qed.

(** The thousandths of a rounded draw lie between those of the end points
    of its rule. *)
Lemma rounded_draw_digits (r : rule) (k : Z) :
  (rne (fst (interval r) * 1000)
   <= rne (uniform (lo r) (hi r) k * 1000)
   <= rne (snd (interval r) * 1000))%Z.
Proof.
  destruct (uniform_range (lo r) (hi r) k (interval_ordered r)) as [Lo Up].
  assert (A : (rne (b64 (lo r) * 1000) <= rne (uniform (lo r) (hi r) k * 1000))%Z)
    by (apply rne_mono; lra).
  assert (B : (rne (uniform (lo r) (hi r) k * 1000)
               <= rne (b64 (lo r + b64 (fsub (hi r) (lo r))) * 1000))%Z)
    by (apply rne_mono; lra).
  assert (Ea : rne (b64 (lo r) * 1000) = rne (fst (interval r) * 1000))
    by (destruct r; vm_compute; reflexivity).
  assert (Eb : rne (b64 (lo r + b64 (fsub (hi r) (lo r))) * 1000)
               = rne (snd (interval r) * 1000))
    by (destruct r; vm_compute; reflexivity).
  rewrite <- Ea, <- Eb. split; assumption.
Qed.

(** The end points have three decimals. *)
Lemma interval_thousandths (r : rule) :
  inject_Z (rne (fst (interval r) * 1000)) / 1000 == fst (interval r)
  /\ inject_Z (rne (snd (interval r) * 1000)) / 1000 == snd (interval r).
Proof. destruct r; split; vm_compute; reflexivity. Qed.

Lemma thousandths_range (r : rule) :
  (100 <= rne (fst (interval r) * 1000))%Z
  /\ (rne (snd (interval r) * 1000) <= 900)%Z.
Proof. destruct r; vm_compute; split; discriminate. Qed.

(** The thousandths of a float with three decimals are read back from it. *)
Lemma decimal3_digits (n : Z) :
  (100 <= n <= 900)%Z -> rne (decimal3 n * 1000) = n.
Proof.
  intro Hn.
  assert (All : forallb (fun i => let m := (100 + Z.of_nat i)%Z in
                                  (rne (decimal3 m * 1000) =? m)%Z)
                        (seq 0 801) = true)
    by (vm_compute; reflexivity).
  rewrite forallb_forall in All.
  specialize (All (Z.to_nat (n - 100))).
  replace (100 + Z.of_nat (Z.to_nat (n - 100)))%Z with n in All by lia.
  apply Z.eqb_eq, All. apply in_seq. lia.
Qed.

Lemma decimal3_mono (n m : Z) : (n <= m)%Z -> decimal3 n <= decimal3 m.
Proof.
  intro H. unfold decimal3. apply b64_mono.
  rewrite Zle_Qle in H. apply Qmult_le_compat_r; [exact H | discriminate].
Qed.

(** Two different decimals with three places denote different floats, when
    one of them lies between 0.1 and 0.9. *)
Lemma decimal3_unique (n m : Z) :
  (100 <= n <= 900)%Z -> decimal3 m = decimal3 n -> m = n.
Proof.
  intros Hn E.
  assert (Lo : decimal3 99 < decimal3 100) by (vm_compute; reflexivity).
  assert (Hi : decimal3 900 < decimal3 901) by (vm_compute; reflexivity).
  destruct (Z_lt_le_dec m 100) as [Small | Ge].
  { pose proof (decimal3_mono m 99 ltac:(lia)) as A.
    pose proof (decimal3_mono 100 n ltac:(lia)) as B.
    rewrite E in A. lra. }
  destruct (Z_lt_le_dec 900 m) as [Large | Le].
  { pose proof (decimal3_mono 901 m ltac:(lia)) as A.
    pose proof (decimal3_mono n 900 ltac:(lia)) as B.
    rewrite E in A. lra. }
  rewrite <- (decimal3_digits m), <- (decimal3_digits n) by lia.
  rewrite E. reflexivity.
Qed.

(** Rounding a float that already has three decimals changes nothing. *)
Lemma decimal3_fixed (n : Z) :
  (100 <= n <= 900)%Z -> round (decimal3 n) 3 = decimal3 n.
Proof.
  intro Hn. rewrite round_decimal3, (decimal3_digits n Hn). reflexivity.
Qed.

End Scores.

(* ================================================================== *)
(** * Facts about the handler *)
(* ================================================================== *)

Section HandlerFacts.

Context {L : PyLib}.

(** A string consumes one integer of the generator and yields its draw. *)
Lemma line_prob_str (line : str) (st : state) :
  exists prob,
    line_prob (PyStr line) st
      = (inr prob, {| rng := fun n => rng st (S n); wire := wire st |})
    /\ score line (rng st 0%nat) = inr (round prob 3).
Proof.
  destruct (line_prob_classify line st) as (r & C & E).
  destruct (score_classify line (rng st 0%nat)) as (r' & C' & E').
  assert (r' = r) by congruence. subst r'.
  exists (uniform (lo r) (hi r) (rng st 0%nat)). split.
  - rewrite E. reflexivity.
  - exact E'.
Qed.

(** Anything else has no [strip]. *)
Lemma line_prob_not_str (bad : pyvalue) (st : state) :
  (forall s, bad <> PyStr s) ->
  line_prob bad st = (inl (AttributeError bad "strip"), st).
Proof.
  intro N. destruct bad; try reflexivity.
  exfalso. eapply N. reflexivity.
Qed.

Lemma line_prob_wire (line : pyvalue) (st : state) :
  wire (snd (line_prob line st)) = wire st.
Proof.
  destruct line; try reflexivity.
  destruct (line_prob_str s st) as (prob & E & _). rewrite E. reflexivity.
Qed.

(** The loop over a list of strings: one score per line, in order, the
    [i]-th from the [i]-th line and the [i]-th integer of the generator. *)
Lemma for_line_in_strs (ls : list str) :
  forall (acc : list float) (st : state),
  exists ps,
    for_line_in (List.map PyStr ls) acc st
      = (inr (acc ++ ps)%list,
         {| rng := fun n => rng st (List.length ls + n)%nat; wire := wire st |})
    /\ List.length ps = List.length ls
    /\ forall i line,
         nth_error ls i = Some line ->
         exists p, nth_error ps i = Some p /\ score line (rng st i) = inr p.
Proof.
  induction ls as [ | l ls IH]; intros acc st.
  - exists []. split; [ | split; [reflexivity | ] ].
    + simpl. rewrite app_nil_r. destruct st; reflexivity.
    + intros [ | i] line E; discriminate E.
  - destruct (line_prob_str l st) as (prob & E & Sc).
    destruct (IH (acc ++ [round prob 3])%list
                 {| rng := fun n => rng st (S n); wire := wire st |})
      as (ps & Eps & Len & Nth).
    exists (round prob 3 :: ps). split; [ | split ].
    + cbn [List.map for_line_in]. unfold bind at 1. rewrite E. cbv beta iota.
      rewrite Eps. rewrite <- app_assoc. reflexivity.
    + simpl. rewrite Len. reflexivity.
    + intros [ | i] line Hi; simpl in Hi.
      * injection Hi as <-. exists (round prob 3). split; [reflexivity | exact Sc].
      * apply (Nth i line Hi).
Qed.

(** The loop stops at the first element that is not a string. *)
Lemma for_line_in_bad (before : list str) (bad : pyvalue) (after : list pyvalue) :
  (forall s, bad <> PyStr s) ->
  forall (acc : list float) (st : state),
  exists st',
    for_line_in (List.map PyStr before ++ bad :: after)%list acc st
      = (inl (AttributeError bad "strip"), st')
    /\ wire st' = wire st.
Proof.
  intro N. induction before as [ | l ls IH]; intros acc st.
  - exists st. split; [ | reflexivity].
    cbn [List.map app for_line_in]. unfold bind at 1.
    rewrite (line_prob_not_str bad st N). reflexivity.
  - destruct (line_prob_str l st) as (prob & E & _).
    destruct (IH (acc ++ [round prob 3])%list
                 {| rng := fun n => rng st (S n); wire := wire st |})
      as (st' & Est & W).
    exists st'. split; [ | exact W].
    cbn [List.map app for_line_in]. unfold bind at 1. rewrite E. exact Est.
Qed.

Lemma for_line_in_wire (items : list pyvalue) :
  forall (acc : list float) (st : state),
  wire (snd (for_line_in items acc st)) = wire st.
Proof.
  induction items as [ | v items IH]; intros acc st; [reflexivity | ].
  cbn [for_line_in]. unfold bind at 1.
  pose proof (line_prob_wire v st) as W.
  destruct (line_prob v st) as [[e | prob] st1]; simpl in W.
  - exact W.
  - rewrite IH. exact W.
Qed.

(** Lines 21-40 make no call on the connection. *)
Lemma predict_wire (post_data : list byte) (st : state) :
  wire (snd (predict post_data st)) = wire st.
Proof.
  unfold predict, bind, eval.
  destruct (decode_utf8 post_data) as [e | text]; [reflexivity | ]. simpl.
  destruct (json_loads text) as [e | v]; [reflexivity | ]. simpl.
  destruct (get v (py "lines") (PyList [])) as [e | lines]; [reflexivity | ]. simpl.
  destruct (iter lines) as [e | items]; [reflexivity | ]. simpl.
  apply for_line_in_wire.
Qed.

(** What [predict] does once the body has parsed to an object. *)
Lemma predict_object (post_data : list byte) (text : str)
      (items : list (str * pyvalue)) (st : state) :
  decode_utf8 post_data = inr text ->
  json_loads text = inr (PyDict items) ->
  predict post_data st
  = bind (eval (iter (match dict_lookup (py "lines") items with
                      | Some v => v
                      | None => PyList []
                      end)))
         (fun elements => for_line_in elements []) st.
Proof.
  intros D J. unfold predict, bind at 1 2 3, eval at 1 2 3.
  rewrite D. simpl. rewrite J. reflexivity.
Qed.

(** [do_POST] on the path [/predict], once the body has been read: the try
    statement sends one of the two replies. *)
Lemma do_POST_predict (self : request) (n : Z) (post_data : list byte)
      (st : state) :
  path self = "/predict" ->
  int (headers_get (headers self) "Content-Length") = inr n ->
  read (rfile self) n = inr post_data ->
  do_POST self st
  = match predict post_data st with
    | (inr ps, st') =>
        (inr tt, {| rng := rng st'; wire := (wire st' ++ success_reply ps)%list |})
    | (inl e, st') =>
        (inr tt, {| rng := rng st'; wire := (wire st' ++ failure_reply e)%list |})
    end.
Proof.
  intros P C R. unfold do_POST. rewrite P, String.eqb_refl.
  unfold bind at 1. rewrite C. unfold eval at 1, ret at 1. cbv beta iota zeta.
  unfold bind at 1. rewrite R. unfold eval at 1, ret at 1. cbv beta iota zeta.
  unfold try_except, send_response, send_header, end_headers, wfile_write,
    bind, emit.
  destruct (predict post_data st) as [[e | ps] st']; simpl.
  - unfold failure_reply. repeat rewrite <- app_assoc. reflexivity.
  - unfold success_reply. repeat rewrite <- app_assoc. reflexivity.
Qed.

Lemma handle_POST (self : request) :
  command self = "POST" -> handle_one_request self = do_POST self.
Proof. intro C. unfold handle_one_request. rewrite C. reflexivity. Qed.

Lemma handle_OPTIONS (self : request) :
  command self = "OPTIONS" -> handle_one_request self = do_OPTIONS self.
Proof. intro C. unfold handle_one_request. rewrite C. reflexivity. Qed.

Lemma eqb_append (prefix x y : string) :
  String.eqb (prefix ++ x) (prefix ++ y) = String.eqb x y.
Proof.
  induction prefix as [ | c prefix IH]; simpl; [reflexivity | ].
  rewrite Ascii.eqb_refl. exact IH.
Qed.

Lemma handle_other (self : request) (st : state) :
  command self <> "POST" -> command self <> "OPTIONS" ->
  handle_one_request self st
  = send_error 501 ("Unsupported method ('" ++ command self ++ "')") st.
Proof.
  intros NP NO. unfold handle_one_request, LineSurvivalHandler, getattr.
  change "do_POST" with ("do_" ++ "POST")%string.
  change "do_OPTIONS" with ("do_" ++ "OPTIONS")%string.
  rewrite !eqb_append.
  destruct (String.eqb_spec "POST" (command self)) as [E | _]; [congruence | ].
  destruct (String.eqb_spec "OPTIONS" (command self)) as [E | _]; [congruence | ].
  reflexivity.
Qed.

(** A POST to [/predict] whose body has been read, on a fresh connection. *)
Lemma serve_predict (self : request) (n : Z) (post_data : list byte)
      (gen : nat -> Z) :
  command self = "POST" ->
  path self = "/predict" ->
  int (headers_get (headers self) "Content-Length") = inr n ->
  read (rfile self) n = inr post_data ->
  serve self gen
  = match predict post_data {| rng := gen; wire := [] |} with
    | (inr ps, _) => (inr tt, success_reply ps)
    | (inl e, _) => (inr tt, failure_reply e)
    end.
Proof.
  intros C P Len R. unfold serve. rewrite (handle_POST self C).
  rewrite (do_POST_predict self n post_data _ P Len R).
  pose proof (predict_wire post_data {| rng := gen; wire := [] |}) as W.
  destruct (predict post_data {| rng := gen; wire := [] |})
    as [[e | ps] st']; simpl in W; simpl; rewrite W; reflexivity.
Qed.

(** The header is read before the try statement: an exception of [int]
    leaves [do_POST], and nothing has been sent. *)
Lemma do_POST_unreadable (self : request) (e : exn) (st : state) :
  path self = "/predict" ->
  int (headers_get (headers self) "Content-Length") = inl e ->
  do_POST self st = (inl e, st).
Proof.
  intros P C. unfold do_POST. rewrite P, String.eqb_refl.
  unfold bind at 1. rewrite C. reflexivity.
Qed.

(** So is the body: an exception of [read] leaves [do_POST] as well. *)
Lemma do_POST_unread (self : request) (n : Z) (e : exn) (st : state) :
  path self = "/predict" ->
  int (headers_get (headers self) "Content-Length") = inr n ->
  read (rfile self) n = inl e ->
  do_POST self st = (inl e, st).
Proof.
  intros P C R. unfold do_POST. rewrite P, String.eqb_refl.
  unfold bind at 1. rewrite C. unfold eval at 1, ret at 1. cbv beta iota zeta.
  unfold bind at 1. rewrite R. reflexivity.
Qed.

Lemma do_POST_elsewhere (self : request) (st : state) :
  path self <> "/predict" ->
  do_POST self st
  = (inr tt, {| rng := rng st; wire := (wire st ++ not_found_reply)%list |}).
Proof.
  intro P. unfold do_POST.
  destruct (String.eqb_spec (path self) "/predict") as [E | _]; [congruence | ].
  unfold send_response, end_headers, bind, emit. simpl.
  rewrite <- app_assoc. reflexivity.
Qed.

Lemma do_OPTIONS_reply (self : request) (st : state) :
  do_OPTIONS self st
  = (inr tt, {| rng := rng st; wire := (wire st ++ preflight_reply)%list |}).
Proof.
  unfold do_OPTIONS, send_response, send_header, end_headers, bind, emit. simpl.
  repeat rewrite <- app_assoc. reflexivity.
Qed.

(** A list with an element that is not a string splits at the first one. *)
Lemma first_non_str (elements : list pyvalue) :
  existsb (fun v => negb (is_str v)) elements = true ->
  exists before bad after,
    elements = (List.map PyStr before ++ bad :: after)%list
    /\ forall s, bad <> PyStr s.
Proof.
  induction elements as [ | v vs IH]; simpl; [discriminate | ].
  destruct v as [ | b | n | f | s | l | d ]; simpl;
    try (intros _; exists []; eexists; exists vs; split;
         [reflexivity | intros s0 E0; discriminate E0]).
  intro E. destruct (IH E) as (before & bad & after & -> & N).
  exists (s :: before), bad, after. split; [reflexivity | exact N].
Qed.

(** The loop raises only at an element that is not a string. *)
Lemma for_line_in_raises (elements : list pyvalue) :
  forall acc st e st',
    for_line_in elements acc st = (inl e, st') ->
    exists before bad after,
      elements = (List.map PyStr before ++ bad :: after)%list
      /\ (forall s, bad <> PyStr s)
      /\ e = AttributeError bad "strip".
Proof.
  induction elements as [ | v vs IH]; intros acc st e st' R.
  - discriminate R.
  - destruct (is_str v) eqn:S.
    + destruct v; try discriminate S.
      cbn [for_line_in] in R. unfold bind at 1 in R.
      destruct (line_prob_str s st) as (prob & E & _). rewrite E in R.
      destruct (IH _ _ _ _ R) as (before & bad & after & -> & N & ->).
      exists (s :: before), bad, after. repeat split; [exact N].
    + assert (N : forall s, v <> PyStr s) by (intros s ->; discriminate S).
      cbn [for_line_in] in R. unfold bind at 1 in R.
      rewrite (line_prob_not_str v st N) in R. injection R as <- _.
      exists [], v, vs. repeat split; exact N.
Qed.

End HandlerFacts.

(* ================================================================== *)
(** * Properties of the server *)
(* ================================================================== *)

Section Properties.

Context {L : PyLib}.

Local Open Scope Q_scope.

Lemma serve_object (self : request) (gen : nat -> Z)
      (items : list (str * pyvalue)) :
  command self = "POST" ->
  path self = "/predict" ->
  body_is_object self items ->
  serve self gen
  = match bind (eval (iter (match dict_lookup (py "lines") items with
                            | Some v => v
                            | None => PyList []
                            end)))
               (fun elements => for_line_in elements [])
               {| rng := gen; wire := [] |} with
    | (inr ps, _) => (inr tt, success_reply ps)
    | (inl e, _) => (inr tt, failure_reply e)
    end.
Proof.
  intros C P (post_data & text & (n & Len & R) & D & J).
  rewrite (serve_predict self n post_data gen C P Len R).
  rewrite (predict_object _ text items _ D J). reflexivity.
Qed.

(** C1. Every valid POST to [/predict] whose body is a JSON object with
    [lines] bound to a sequence of strings gets the success reply; its
    [probabilities] has exactly the length of [lines], and the [i]-th
    probability is the score of the [i]-th line (with the [i]-th integer of
    the random source). *)
Theorem probabilities_follow_lines (self : request) (gen : nat -> Z)
        (items : list (str * pyvalue)) (lines : list str) :
  command self = "POST" ->
  path self = "/predict" ->
  body_is_object self items ->
  dict_lookup (py "lines") items = Some (PyList (List.map PyStr lines)) ->
  exists probabilities,
    serve self gen = (inr tt, success_reply probabilities)
    /\ List.length probabilities = List.length lines
    /\ forall i line,
         nth_error lines i = Some line ->
         exists p, nth_error probabilities i = Some p
                   /\ score line (gen i) = inr p.
Proof.
  intros C P B Lk.
  rewrite (serve_object self gen items C P B), Lk.
  destruct (for_line_in_strs lines [] {| rng := gen; wire := [] |})
    as (ps & E & Len & Nth).
  exists ps. split; [ | split; [exact Len | exact Nth] ].
  unfold bind, eval, iter, ret. rewrite E. reflexivity.
Qed.

Lemma find_first {A} (f : A -> bool) (l : list A) (x : A) :
  find f l = Some x ->
  exists before after,
    l = (before ++ x :: after)%list
    /\ f x = true
    /\ forall y, In y before -> f y = false.
Proof.
  induction l as [ | a l IH]; simpl; [discriminate | ].
  destruct (f a) eqn:Fa.
  - intro E. injection E as <-. exists [], l. repeat split; [exact Fa | ].
    intros y [].
  - intro E. destruct (IH E) as (before & after & -> & Fx & N).
    exists (a :: before), after. repeat split; [exact Fx | ].
    intros y [<- | In_y]; [exact Fa | exact (N y In_y)].
Qed.

(** C2. For every line the branch taken is the one of the first rule, in
    the order empty > comment > import > definition > otherwise, that
    matches: some rule [r] of [priority] matches, none before it does, and
    the draw is [random.uniform] on the interval of [r].  In particular
    ['# import os'], which matches both the comment and the import rule, is
    drawn from the comment interval. *)
Theorem first_matching_rule_wins :
  (forall (line : str) (st : state),
     exists r before after,
       priority = (before ++ r :: after)%list
       /\ applies r line = true
       /\ (forall r', In r' before -> applies r' line = false)
       /\ line_prob (PyStr line) st = random_uniform (lo r) (hi r) st)
  /\ (applies Comment (py "# import os") = true
      /\ applies Import (py "# import os") = true
      /\ forall st, line_prob (PyStr (py "# import os")) st
                    = random_uniform (b64 0.2) (b64 0.5) st).
Proof.
  split.
  - intros line st.
    destruct (line_prob_classify line st) as (r & C & E).
    destruct (find_first _ _ _ C) as (before & after & Pr & A & N).
    exists r, before, after. repeat split; assumption.
  - split; [vm_compute; reflexivity | ].
    split; [vm_compute; reflexivity | ].
    intro st. destruct (line_prob_classify (py "# import os") st) as (r & C & E).
    vm_compute in C. injection C as <-. exact E.
Qed.

(** C3 as stated fails.  For the comment line ['#'] and the draw
    [random() = 0.999] the handler returns 0.5, the upper end point of the
    comment interval [[0.2, 0.5)]: 0.2 + (0.5 - 0.2) * 0.999 is 0.4997, which
    rounds to 0.5. *)
Lemma upper_end_point_returned :
  classify (py "#") = Some Comment
  /\ random 8998192055486251 = b64 0.999
  /\ score (py "#") 8998192055486251 = inr (1 # 2)
  /\ hi Comment = 1 # 2
  /\ ~ (lo Comment <= 1 # 2 < hi Comment).
Proof.
  split; [vm_compute; reflexivity | ].
  split; [vm_compute; reflexivity | ].
  split; [vm_compute; reflexivity | ].
  split; [vm_compute; reflexivity | ].
  intros [_ H]. vm_compute in H. discriminate H.
Qed.

(** C3, amended.  For every line and every integer the random source can
    deliver, the returned score lies in the closed interval of the line's
    rule: it is the float of a decimal [n / 1000] that lies between the two
    end points, and as a float it lies between the floats of the end
    points. *)
Theorem score_in_closed_interval (line : str) (k : Z) :
  exists r n,
    classify line = Some r
    /\ score line k = inr (decimal3 n)
    /\ fst (interval r) <= inject_Z n / 1000 <= snd (interval r)
    /\ lo r <= decimal3 n <= hi r.
Proof.
  destruct (score_classify line k) as (r & C & E).
  exists r, (rne (uniform (lo r) (hi r) k * 1000)).
  split; [exact C | ]. split; [rewrite E, round_decimal3; reflexivity | ].
  split.
  - pose proof (rounded_draw_digits r k) as [A B].
    rewrite Zle_Qle in A, B.
    destruct (interval_thousandths r) as [Ea Eb].
    split.
    + apply Qle_trans with (inject_Z (rne (fst (interval r) * 1000)) / 1000);
        [rewrite Ea; apply Qle_refl | ].
      apply Qmult_le_compat_r; [exact A | discriminate].
    + apply Qle_trans with (inject_Z (rne (snd (interval r) * 1000)) / 1000);
        [ | rewrite Eb; apply Qle_refl].
      apply Qmult_le_compat_r; [exact B | discriminate].
  - rewrite <- round_decimal3. apply rounded_draw_range.
Qed.

(** The score of one line is the float that the decimal [n / 1000] denotes,
    for the integer [n] nearest to a thousand times the draw. *)
Lemma score_has_three_decimals (line : str) (k : Z) :
  exists (prob : float) (n : Z),
    fst (line_prob (PyStr line) {| rng := fun _ => k; wire := [] |}) = inr prob
    /\ inject_Z n - (1 # 2) <= prob * 1000 <= inject_Z n + (1 # 2)
    /\ score line k = inr (decimal3 n)
    /\ (forall m, decimal3 m = decimal3 n -> m = n)
    /\ round (decimal3 n) 3 = decimal3 n.
Proof.
  destruct (line_prob_classify line {| rng := fun _ => k; wire := [] |})
    as (r & C & E).
  destruct (score_classify line k) as (r' & C' & E').
  assert (r' = r) by congruence. subst r'.
  exists (uniform (lo r) (hi r) k), (rne (uniform (lo r) (hi r) k * 1000)).
  split; [rewrite E; reflexivity | ].
  split; [apply rne_error | ].
  split; [rewrite E', round_decimal3; reflexivity | ].
  assert (Hn : (100 <= rne (uniform (lo r) (hi r) k * 1000) <= 900)%Z).
  { pose proof (rounded_draw_digits r k). pose proof (thousandths_range r). lia. }
  split; [intros m; apply decimal3_unique | apply decimal3_fixed]; exact Hn.
Qed.

(** C5, amended.  A POST to [/predict] whose body the handler has read
    (the length header is an integer and the read succeeds) and whose body
    is not valid JSON, or whose structure makes the processing raise, gets
    status 500 and the JSON object [{"error": str(e)}]; the exception is
    caught, the handler returns normally. *)
Theorem malformed_body_gets_500 (self : request) (gen : nat -> Z)
        (post_data : list byte) (e : exn) :
  command self = "POST" ->
  path self = "/predict" ->
  body_is self post_data ->
  malformed post_data e ->
  serve self gen = (inr tt, failure_reply e)
  /\ status (snd (serve self gen)) = Some 500%Z
  /\ body (snd (serve self gen))
     = [json_dumps (PyDict [(py "error", PyStr (py (exn_str e)))])].
Proof.
  intros C P (n & Len & R) M.
  assert (S : serve self gen = (inr tt, failure_reply e));
    [ | rewrite S; split; [reflexivity | split; reflexivity] ].
  rewrite (serve_predict self n post_data gen C P Len R).
  unfold predict, bind, eval.
  destruct M as [e D | text e D J | text v D J N | text v lines e D J G I
                 | text v lines elements before bad after D J G I -> N].
  - rewrite D. reflexivity.
  - rewrite D. simpl. rewrite J. reflexivity.
  - rewrite D. simpl. rewrite J. simpl.
    destruct v; try reflexivity. exfalso. eapply N. reflexivity.
  - rewrite D. simpl. rewrite J. simpl. rewrite G. simpl. rewrite I. reflexivity.
  - rewrite D. simpl. rewrite J. simpl. rewrite G. simpl. rewrite I. simpl.
    destruct (for_line_in_bad before bad after N [] {| rng := gen; wire := [] |})
      as (st' & E & _).
    unfold ret. rewrite E. reflexivity.
Qed.

(** C5 as stated fails.  A POST to [/predict] that carries a body which is
    not valid JSON but no [Content-Length] field gets no status 500:
    [int(None)] raises at line 16, before the try statement, the exception
    leaves [do_POST], and the handler sends nothing. *)
Lemma no_500_without_length :
  headers_get (headers (Sample.post_declaring None "{'lines': ["))
              "Content-Length" = None
  /\ rfile (Sample.post_declaring None "{'lines': [") = Sample.json "{'lines': ["
  /\ (exists e, Sample.loads (Sample.text "{'lines': [") = inl e)
  /\ @serve Sample.lib (Sample.post_declaring None "{'lines': [")
             (Sample.gen 1 7919)
     = (inl (TypeError
               "int() argument must be a string, a bytes-like object or a real number, not 'NoneType'"),
        [])
  /\ status (snd (@serve Sample.lib (Sample.post_declaring None "{'lines': [")
                          (Sample.gen 1 7919))) <> Some 500%Z.
Proof.
  split; [reflexivity | ].
  split; [reflexivity | ].
  split; [eexists; vm_compute; reflexivity | ].
  split; [reflexivity | discriminate].
Qed.

(** The cases of [malformed] are all the ways in which lines 21-40 raise. *)
Lemma predict_raises (post_data : list byte) (st st' : state) (e : exn) :
  predict post_data st = (inl e, st') -> malformed post_data e.
Proof.
  unfold predict, bind, eval. intro R.
  destruct (decode_utf8 post_data) as [e0 | text] eqn:D.
  { injection R as <- _. apply not_utf8. exact D. }
  simpl in R. destruct (json_loads text) as [e0 | v] eqn:J.
  { injection R as <- _. eapply not_json; eassumption. }
  simpl in R. destruct (get v (py "lines") (PyList [])) as [e0 | lines] eqn:G.
  { destruct v; simpl in G; try discriminate G;
      injection G as <-; injection R as <- _;
      (eapply not_an_object; [exact D | exact J | intros d E; discriminate E]). }
  simpl in R. destruct (iter lines) as [e0 | elements] eqn:I.
  { injection R as <- _. eapply lines_not_iterable; eassumption. }
  simpl in R. unfold ret in R.
  destruct (for_line_in_raises _ _ _ _ _ R) as (before & bad & after & -> & N & ->).
  eapply line_not_str; try eassumption. reflexivity.
Qed.

(** A rounded draw has three decimals. *)
Lemma rounded_draw_three_decimals (r : rule) (k : Z) :
  three_decimals (round (uniform (lo r) (hi r) k) 3).
Proof.
  assert (Hn : (100 <= rne (uniform (lo r) (hi r) k * 1000) <= 900)%Z).
  { pose proof (rounded_draw_digits r k). pose proof (thousandths_range r). lia. }
  exists (rne (uniform (lo r) (hi r) k * 1000)).
  rewrite round_decimal3.
  split; [reflexivity | ].
  split; [intro m; apply decimal3_unique | apply decimal3_fixed]; exact Hn.
Qed.

(** The loop keeps the invariant that every element of [probabilities] has
    three decimals: what line 40 appends has been rounded. *)
Lemma for_line_in_rounded (elements : list pyvalue) :
  forall acc st ps st',
    Forall three_decimals acc ->
    for_line_in elements acc st = (inr ps, st') ->
    Forall three_decimals ps.
Proof.
  induction elements as [ | v vs IH]; intros acc st ps st' A R.
  - injection R as <- _. exact A.
  - cbn [for_line_in] in R. unfold bind at 1 in R.
    destruct (is_str v) eqn:S.
    + destruct v; try discriminate S.
      destruct (line_prob_classify s st) as (r & _ & E).
      rewrite E in R. unfold random_uniform in R.
      apply (IH _ _ _ _) in R; [exact R | ].
      apply Forall_app. split; [exact A | ].
      constructor; [apply rounded_draw_three_decimals | constructor].
    + assert (N : forall s, v <> PyStr s) by (intros s ->; discriminate S).
      rewrite (line_prob_not_str v st N) in R. discriminate R.
Qed.

Lemma floats_inj (a b : list float) : floats a = floats b -> a = b.
Proof.
  unfold floats. intro E. injection E as E. revert b E.
  induction a as [ | x a IH]; intros [ | y b] E; try discriminate E.
  - reflexivity.
  - simpl in E. injection E as -> E. rewrite (IH b E). reflexivity.
Qed.

(** C4. Every value of a returned [probabilities] sequence is rounded to
    exactly three decimal places: whenever the server sends a success reply,
    each of its probabilities is the float that a decimal [n / 1000]
    denotes, no other decimal with three places denotes that float, and
    rounding it again to three places leaves it unchanged. *)
Theorem returned_values_have_three_decimals (self : request) (gen : nat -> Z)
        (probabilities : list float) :
  serve self gen = (inr tt, success_reply probabilities) ->
  Forall three_decimals probabilities.
Proof.
  intro S.
  destruct (string_dec (command self) "OPTIONS") as [C | NO].
  { unfold serve in S. rewrite (handle_OPTIONS self C), do_OPTIONS_reply in S.
    discriminate S. }
  destruct (string_dec (command self) "POST") as [C | NP].
  2:{ unfold serve in S. rewrite (handle_other self _ NP NO) in S. discriminate S. }
  destruct (string_dec (path self) "/predict") as [P | NP].
  2:{ unfold serve in S.
      rewrite (handle_POST self C), (do_POST_elsewhere self _ NP) in S.
      discriminate S. }
  destruct (int (headers_get (headers self) "Content-Length")) as [e | n] eqn:Len.
  { unfold serve in S.
    rewrite (handle_POST self C), (do_POST_unreadable self e _ P Len) in S.
    discriminate S. }
  destruct (read (rfile self) n) as [e | post_data] eqn:Rd.
  { unfold serve in S.
    rewrite (handle_POST self C), (do_POST_unread self n e _ P Len Rd) in S.
    discriminate S. }
  rewrite (serve_predict self n post_data gen C P Len Rd) in S.
  destruct (predict post_data {| rng := gen; wire := [] |})
    as [[e | ps] st'] eqn:R; [discriminate S | ].
  assert (E : ps = probabilities).
  { apply floats_inj. unfold success_reply in S. congruence. }
  subst ps. clear S.
  unfold predict, bind, eval in R.
  destruct (decode_utf8 post_data) as [e | text]; [discriminate R | ]. simpl in R.
  destruct (json_loads text) as [e | v]; [discriminate R | ]. simpl in R.
  destruct (get v (py "lines") (PyList [])) as [e | lines]; [discriminate R | ].
  simpl in R.
  destruct (iter lines) as [e | elements]; [discriminate R | ]. simpl in R.
  unfold ret in R.
  exact (for_line_in_rounded elements [] _ _ _ (Forall_nil _) R).
Qed.

(** C6 as stated fails: [GET /predict] is answered 501, not 404.  The class
    has no [do_GET], and the library replies for it. *)
Lemma get_predict_is_501 :
  @serve Sample.lib (Sample.bare "GET" "/predict") (Sample.gen 0 1)
  = (inr tt, [SendError 501 "Unsupported method ('GET')"])
  /\ status (snd (@serve Sample.lib (Sample.bare "GET" "/predict") (Sample.gen 0 1)))
     <> Some 404%Z.
Proof. split; [reflexivity | discriminate]. Qed.

(** C6, amended.  A POST to any path other than [/predict] gets status 404
    and an empty body.  A request whose method is neither POST nor OPTIONS
    (such as [GET /predict]) does not reach the handler's code and gets the
    library's status 501. *)
Theorem unmatched_requests (self : request) (gen : nat -> Z) :
  (command self = "POST" -> path self <> "/predict" ->
   serve self gen = (inr tt, not_found_reply)
   /\ status (snd (serve self gen)) = Some 404%Z
   /\ body (snd (serve self gen)) = [])
  /\ (command self <> "POST" -> command self <> "OPTIONS" ->
      status (snd (serve self gen)) = Some 501%Z).
Proof.
  split.
  - intros C P.
    assert (S : serve self gen = (inr tt, not_found_reply));
      [ | rewrite S; split; [reflexivity | split; reflexivity] ].
    unfold serve. rewrite (handle_POST self C), (do_POST_elsewhere self _ P).
    reflexivity.
  - intros NP NO. unfold serve. rewrite (handle_other self _ NP NO). reflexivity.
Qed.

(** C7. Every reply with status 200 carries the three CORS header fields;
    an OPTIONS request, to any path, gets status 200, these fields, and an
    empty body. *)
Theorem ok_replies_carry_cors (self : request) (gen : nat -> Z) :
  (status (snd (serve self gen)) = Some 200%Z ->
   cors_headers (snd (serve self gen)))
  /\ (command self = "OPTIONS" ->
      status (snd (serve self gen)) = Some 200%Z
      /\ cors_headers (snd (serve self gen))
      /\ body (snd (serve self gen)) = []).
Proof.
  assert (O : command self = "OPTIONS" ->
              serve self gen = (inr tt, preflight_reply)).
  { intro C. unfold serve. rewrite (handle_OPTIONS self C), do_OPTIONS_reply.
    reflexivity. }
  assert (Pre : cors_headers preflight_reply).
  { unfold cors_headers, has_header, preflight_reply. simpl. tauto. }
  split.
  - destruct (string_dec (command self) "OPTIONS") as [C | NO].
    { rewrite (O C). intros _. exact Pre. }
    destruct (string_dec (command self) "POST") as [C | NP].
    2:{ unfold serve. rewrite (handle_other self _ NP NO). discriminate. }
    destruct (string_dec (path self) "/predict") as [P | NP].
    2:{ unfold serve. rewrite (handle_POST self C), (do_POST_elsewhere self _ NP).
        discriminate. }
    destruct (int (headers_get (headers self) "Content-Length")) as [e | n] eqn:Len.
    { unfold serve. rewrite (handle_POST self C), (do_POST_unreadable self e _ P Len).
      discriminate. }
    destruct (read (rfile self) n) as [e | post_data] eqn:R.
    { unfold serve.
      rewrite (handle_POST self C), (do_POST_unread self n e _ P Len R).
      discriminate. }
    rewrite (serve_predict self n post_data gen C P Len R).
    destruct (predict post_data {| rng := gen; wire := [] |})
      as [[e | ps] st']; [discriminate | ].
    intros _. unfold cors_headers, has_header, success_reply. simpl. tauto.
  - intro C. rewrite (O C). split; [reflexivity | split; [exact Pre | reflexivity] ].
Qed.

(** C8. Two POSTs to [/predict] whose bodies are JSON objects with equal
    [lines], served with the same random source, get identical replies:
    nothing else of the request is read. *)
Theorem reply_depends_on_lines_only (self1 self2 : request) (gen : nat -> Z)
        (items1 items2 : list (str * pyvalue)) :
  command self1 = "POST" -> path self1 = "/predict" ->
  command self2 = "POST" -> path self2 = "/predict" ->
  body_is_object self1 items1 ->
  body_is_object self2 items2 ->
  dict_lookup (py "lines") items1 = dict_lookup (py "lines") items2 ->
  serve self1 gen = serve self2 gen.
Proof.
  intros C1 P1 C2 P2 B1 B2 E.
  rewrite (serve_object self1 gen items1 C1 P1 B1).
  rewrite (serve_object self2 gen items2 C2 P2 B2).
  rewrite E. reflexivity.
Qed.

(** C9. A POST to [/predict] whose body is a JSON object without the key
    [lines] gets status 200 and the body [{"probabilities": []}]: the
    missing key defaults to the empty list. *)
Theorem missing_lines_is_empty_list (self : request) (gen : nat -> Z)
        (items : list (str * pyvalue)) :
  command self = "POST" ->
  path self = "/predict" ->
  body_is_object self items ->
  dict_lookup (py "lines") items = None ->
  serve self gen = (inr tt, success_reply [])
  /\ status (snd (serve self gen)) = Some 200%Z
  /\ body (snd (serve self gen))
     = [json_dumps (PyDict [(py "probabilities", PyList [])])].
Proof.
  intros C P B Lk.
  assert (S : serve self gen = (inr tt, success_reply []));
    [ | rewrite S; split; [reflexivity | split; reflexivity] ].
  rewrite (serve_object self gen items C P B), Lk. reflexivity.
Qed.

(** C10. A POST to [/predict] whose body is a JSON object with a [lines]
    list that has an element which is not a string gets status 500 and the
    JSON object [{"error": ...}]: the loop raises at the first such element,
    and the reply carries no [probabilities]. *)
Theorem non_string_line_gets_500 (self : request) (gen : nat -> Z)
        (items : list (str * pyvalue)) (elements : list pyvalue) :
  command self = "POST" ->
  path self = "/predict" ->
  body_is_object self items ->
  dict_lookup (py "lines") items = Some (PyList elements) ->
  existsb (fun v => negb (is_str v)) elements = true ->
  exists before bad after,
    elements = (List.map PyStr before ++ bad :: after)%list
    /\ is_str bad = false
    /\ serve self gen = (inr tt, failure_reply (AttributeError bad "strip"))
    /\ status (snd (serve self gen)) = Some 500%Z
    /\ body (snd (serve self gen))
       = [json_dumps
            (PyDict [(py "error",
                      PyStr (py (exn_str (AttributeError bad "strip"))))])].
Proof.
  intros C P B Lk Ex.
  destruct (first_non_str elements Ex) as (before & bad & after & -> & N).
  assert (S : serve self gen = (inr tt, failure_reply (AttributeError bad "strip"))).
  { rewrite (serve_object self gen items C P B), Lk.
    destruct (for_line_in_bad before bad after N [] {| rng := gen; wire := [] |})
      as (st' & E & _).
    unfold bind, eval, iter, ret. rewrite E. reflexivity. }
  exists before, bad, after.
  split; [reflexivity | ]. split.
  { destruct bad; try reflexivity. exfalso. eapply N. reflexivity. }
  split; [exact S | ]. rewrite S. split; reflexivity.
Qed.

End Properties.

(* ================================================================== *)
(** * Concrete runs *)
(* ================================================================== *)

Ltac sample_body b :=
  exists (Sample.json b), (Sample.text b);
  split;
  [ exists (Z.of_nat (List.length (Sample.json b))); split; vm_compute; reflexivity
  | split; vm_compute; reflexivity ].

(** C1 on the scenario of the specification: five lines, five probabilities. *)
Lemma probabilities_follow_lines_witness :
  exists probabilities,
    @serve Sample.lib (Sample.post "/predict" Sample.five_lines_body)
           (Sample.gen 1 7919)
    = (inr tt, success_reply probabilities)
    /\ List.length probabilities = List.length Sample.five_lines
    /\ forall i line,
         nth_error Sample.five_lines i = Some line ->
         exists p, nth_error probabilities i = Some p
                   /\ score line (Sample.gen 1 7919 i) = inr p.
Proof.
  apply (@probabilities_follow_lines Sample.lib
           (Sample.post "/predict" Sample.five_lines_body) (Sample.gen 1 7919)
           [(py "lines", PyList (List.map PyStr Sample.five_lines))]
           Sample.five_lines).
  - reflexivity.
  - reflexivity.
  - sample_body Sample.five_lines_body.
  - reflexivity.
Defined.

(** C4 on the scenario of the specification, with every draw at
    [random() = 0.999]. *)
Lemma returned_values_have_three_decimals_witness :
  Forall three_decimals [b64 0.3; b64 0.5; b64 0.9; b64 0.8; b64 0.7]%Q.
Proof.
  apply (@returned_values_have_three_decimals Sample.lib
           (Sample.post "/predict" Sample.five_lines_body)
           (Sample.gen 8998192055486251 0)).
  vm_compute. reflexivity.
Defined.

(** C5, amended, on a body that is not JSON. *)
Lemma malformed_body_gets_500_witness :
  @serve Sample.lib (Sample.post "/predict" "{'lines': [") (Sample.gen 1 7919)
  = (inr tt,
     failure_reply
       (Exception "JSONDecodeError" "Expecting value: line 1 column 1 (char 0)"))
  /\ status (snd (@serve Sample.lib (Sample.post "/predict" "{'lines': [")
                         (Sample.gen 1 7919))) = Some 500
  /\ body (snd (@serve Sample.lib (Sample.post "/predict" "{'lines': [")
                       (Sample.gen 1 7919)))
     = [json_dumps
          (PyDict [(py "error",
                    PyStr (py "Expecting value: line 1 column 1 (char 0)"))])].
Proof.
  apply (@malformed_body_gets_500 Sample.lib
           (Sample.post "/predict" "{'lines': [") (Sample.gen 1 7919)
           (Sample.json "{'lines': [")).
  - reflexivity.
  - reflexivity.
  - exists 11. split; vm_compute; reflexivity.
  - apply (@not_json Sample.lib _ (Sample.text "{'lines': [")); vm_compute; reflexivity.
Defined.

(** C6, amended, on a POST to another path and on a DELETE. *)
Lemma unmatched_requests_witness :
  (@serve Sample.lib (Sample.post "/predict/" "{}") (Sample.gen 1 7919)
   = (inr tt, not_found_reply)
   /\ status (snd (@serve Sample.lib (Sample.post "/predict/" "{}")
                          (Sample.gen 1 7919))) = Some 404
   /\ body (snd (@serve Sample.lib (Sample.post "/predict/" "{}")
                        (Sample.gen 1 7919))) = [])
  /\ status (snd (@serve Sample.lib (Sample.bare "DELETE" "/predict")
                         (Sample.gen 1 7919))) = Some 501.
Proof.
  split.
  - apply (proj1 (@unmatched_requests Sample.lib (Sample.post "/predict/" "{}")
                    (Sample.gen 1 7919))).
    + reflexivity.
    + discriminate.
  - apply (proj2 (@unmatched_requests Sample.lib (Sample.bare "DELETE" "/predict")
                    (Sample.gen 1 7919))); discriminate.
Defined.

(** C7 on a successful POST and on a preflight request. *)
Lemma ok_replies_carry_cors_witness :
  cors_headers (snd (@serve Sample.lib
                       (Sample.post "/predict" Sample.five_lines_body)
                       (Sample.gen 1 7919)))
  /\ (status (snd (@serve Sample.lib (Sample.bare "OPTIONS" "/anything")
                          (Sample.gen 1 7919))) = Some 200
      /\ cors_headers (snd (@serve Sample.lib (Sample.bare "OPTIONS" "/anything")
                                   (Sample.gen 1 7919)))
      /\ body (snd (@serve Sample.lib (Sample.bare "OPTIONS" "/anything")
                           (Sample.gen 1 7919))) = []).
Proof.
  split.
  - apply (proj1 (@ok_replies_carry_cors Sample.lib
                    (Sample.post "/predict" Sample.five_lines_body)
                    (Sample.gen 1 7919))).
    vm_compute. reflexivity.
  - apply (proj2 (@ok_replies_carry_cors Sample.lib
                    (Sample.bare "OPTIONS" "/anything") (Sample.gen 1 7919))).
    reflexivity.
Defined.

(** C8 on the same [lines], with and without a second key. *)
Lemma reply_depends_on_lines_only_witness :
  @serve Sample.lib (Sample.post "/predict" "{'lines': ['x = 1'], 'file': 'a.py'}")
         (Sample.gen 1 7919)
  = @serve Sample.lib (Sample.post "/predict" "{'lines': ['x = 1']}")
           (Sample.gen 1 7919).
Proof.
  apply (@reply_depends_on_lines_only Sample.lib
           (Sample.post "/predict" "{'lines': ['x = 1'], 'file': 'a.py'}")
           (Sample.post "/predict" "{'lines': ['x = 1']}")
           (Sample.gen 1 7919)
           [(py "lines", PyList [PyStr (py "x = 1")]); (py "file", PyStr (py "a.py"))]
           [(py "lines", PyList [PyStr (py "x = 1")])]).
  - reflexivity.
  - reflexivity.
  - reflexivity.
  - reflexivity.
  - sample_body "{'lines': ['x = 1'], 'file': 'a.py'}".
  - sample_body "{'lines': ['x = 1']}".
  - reflexivity.
Defined.

(** C9 on an object without [lines]. *)
Lemma missing_lines_is_empty_list_witness :
  @serve Sample.lib (Sample.post "/predict" "{'other': 1}") (Sample.gen 1 7919)
  = (inr tt, success_reply [])
  /\ status (snd (@serve Sample.lib (Sample.post "/predict" "{'other': 1}")
                         (Sample.gen 1 7919))) = Some 200
  /\ body (snd (@serve Sample.lib (Sample.post "/predict" "{'other': 1}")
                       (Sample.gen 1 7919)))
     = [json_dumps (PyDict [(py "probabilities", PyList [])])].
Proof.
  apply (@missing_lines_is_empty_list Sample.lib
           (Sample.post "/predict" "{'other': 1}") (Sample.gen 1 7919)
           [(py "other", PyInt 1)]).
  - reflexivity.
  - reflexivity.
  - sample_body "{'other': 1}".
  - reflexivity.
Defined.

(** C10 on a number and [null] among the lines. *)
Lemma non_string_line_gets_500_witness :
  exists before bad after,
    [PyStr (py "x = 1"); PyInt 2; PyNone]
    = (List.map PyStr before ++ bad :: after)%list
    /\ is_str bad = false
    /\ @serve Sample.lib (Sample.post "/predict" "{'lines': ['x = 1', 2, null]}")
              (Sample.gen 1 7919)
       = (inr tt, failure_reply (AttributeError bad "strip"))
    /\ status (snd (@serve Sample.lib
                      (Sample.post "/predict" "{'lines': ['x = 1', 2, null]}")
                      (Sample.gen 1 7919))) = Some 500
    /\ body (snd (@serve Sample.lib
                    (Sample.post "/predict" "{'lines': ['x = 1', 2, null]}")
                    (Sample.gen 1 7919)))
       = [json_dumps
            (PyDict [(py "error",
                      PyStr (py (exn_str (AttributeError bad "strip"))))])].
Proof.
  apply (@non_string_line_gets_500 Sample.lib
           (Sample.post "/predict" "{'lines': ['x = 1', 2, null]}")
           (Sample.gen 1 7919)
           [(py "lines", PyList [PyStr (py "x = 1"); PyInt 2; PyNone])]
           [PyStr (py "x = 1"); PyInt 2; PyNone]).
  - reflexivity.
  - reflexivity.
  - sample_body "{'lines': ['x = 1', 2, null]}".
  - reflexivity.
  - reflexivity.
Defined.

(** The scenario of the specification with every draw at [random() = 0.999]:
    the five scores are the upper end points 0.3, 0.5, 0.9, 0.8 and 0.7. *)
Lemma five_lines_at_upper_end_points :
  @serve Sample.lib (Sample.post "/predict" Sample.five_lines_body)
         (Sample.gen 8998192055486251 0)
  = (inr tt,
     success_reply [b64 0.3; b64 0.5; b64 0.9; b64 0.8; b64 0.7]%Q).
Proof. vm_compute. reflexivity. Qed.

(** ** Agreement with the hardware format

    The rounding of [Binary64] gives, bit for bit, what the kernel's
    binary64 unit computes for the expressions of the handler. *)

Module Hardware.

Import PrimFloat.

#[local] Set Warnings "-inexact-float".

Lemma literals :
  List.map of_prim [0.1; 0.2; 0.3; 0.5; 0.6; 0.7; 0.8; 0.9; 0.999]%float
  = List.map (fun q => Some (b64 q)) [0.1; 0.2; 0.3; 0.5; 0.6; 0.7; 0.8; 0.9; 0.999]%Q.
Proof. vm_compute. reflexivity. Qed.

Lemma uniform_at_0_999 :
  List.map of_prim
    [ 0.1 + (0.3 - 0.1) * 0.999;
      0.2 + (0.5 - 0.2) * 0.999;
      0.7 + (0.9 - 0.7) * 0.999;
      0.6 + (0.8 - 0.6) * 0.999;
      0.3 + (0.7 - 0.3) * 0.999 ]%float
  = List.map (fun r => Some (uniform (lo r) (hi r) 8998192055486251))
      [Empty; Comment; Import; Defn; Other].
Proof. vm_compute. reflexivity. Qed.

Lemma uniform_at_largest_draw :
  List.map of_prim
    [ 0.1 + (0.3 - 0.1) * 0x1.fffffffffffffp-1;
      0.2 + (0.5 - 0.2) * 0x1.fffffffffffffp-1;
      0.7 + (0.9 - 0.7) * 0x1.fffffffffffffp-1;
      0.6 + (0.8 - 0.6) * 0x1.fffffffffffffp-1;
      0.3 + (0.7 - 0.3) * 0x1.fffffffffffffp-1 ]%float
  = List.map (fun r => Some (uniform (lo r) (hi r) (2 ^ 53 - 1)))
      [Empty; Comment; Import; Defn; Other].
Proof. vm_compute. reflexivity. Qed.

Lemma thousandths_by_division :
  List.map of_prim [100 / 1000; 300 / 1000; 500 / 1000; 799 / 1000; 900 / 1000]%float
  = List.map (fun n => Some (decimal3 n)) [100; 300; 500; 799; 900].
Proof. vm_compute. reflexivity. Qed.

End Hardware.

(* ================================================================== *)
(** * Further properties of the handler *)
(* ================================================================== *)

Section Replies.

Context {L : PyLib}.

(** The loop up to its first element that is not a string, with the state
    it leaves: one integer of the generator is gone for each string. *)
Lemma for_line_in_bad_state (before : list str) (bad : pyvalue)
      (after : list pyvalue) :
  (forall s, bad <> PyStr s) ->
  forall (acc : list float) (st : state),
    for_line_in (List.map PyStr before ++ bad :: after)%list acc st
    = (inl (AttributeError bad "strip"),
       {| rng := fun n => rng st (List.length before + n)%nat; wire := wire st |}).
Proof.
  intro N. induction before as [ | l ls IH]; intros acc st.
  - cbn [List.map app for_line_in]. unfold bind at 1.
    rewrite (line_prob_not_str bad st N). destruct st; reflexivity.
  - destruct (line_prob_str l st) as (prob & E & _).
    cbn [List.map app for_line_in]. unfold bind at 1. rewrite E. cbv beta iota.
    rewrite IH. reflexivity.
Qed.

(** A POST to [/predict] whose body is an object: the state the handler
    leaves, from the elements the loop runs over. *)
Lemma handle_elements (self : request) (gen : nat -> Z)
      (items : list (str * pyvalue)) (elements : list pyvalue) :
  command self = "POST" ->
  path self = "/predict" ->
  body_is_object self items ->
  iter (match dict_lookup (py "lines") items with
        | Some v => v
        | None => PyList []
        end) = inr elements ->
  handle_one_request self {| rng := gen; wire := [] |}
  = match for_line_in elements [] {| rng := gen; wire := [] |} with
    | (inr ps, st') =>
        (inr tt, {| rng := rng st'; wire := (wire st' ++ success_reply ps)%list |})
    | (inl e, st') =>
        (inr tt, {| rng := rng st'; wire := (wire st' ++ failure_reply e)%list |})
    end.
Proof.
  intros C P (post_data & text & (n & Len & R) & D & J) I.
  rewrite (handle_POST self C), (do_POST_predict self n post_data _ P Len R).
  rewrite (predict_object _ text items _ D J).
  unfold bind at 1. rewrite I. reflexivity.
Qed.

(** The same when the elements are strings. *)
Lemma handle_strings (self : request) (gen : nat -> Z)
      (items : list (str * pyvalue)) (lines : list str) :
  command self = "POST" ->
  path self = "/predict" ->
  body_is_object self items ->
  iter (match dict_lookup (py "lines") items with
        | Some v => v
        | None => PyList []
        end) = inr (List.map PyStr lines) ->
  exists probabilities,
    handle_one_request self {| rng := gen; wire := [] |}
    = (inr tt, {| rng := fun n => gen (List.length lines + n)%nat;
                  wire := success_reply probabilities |})
    /\ List.length probabilities = List.length lines
    /\ forall i line,
         nth_error lines i = Some line ->
         exists p, nth_error probabilities i = Some p
                   /\ score line (gen i) = inr p.
Proof.
  intros C P B I.
  destruct (for_line_in_strs lines [] {| rng := gen; wire := [] |})
    as (ps & E & Len & Nth).
  exists ps. split; [ | split; [exact Len | exact Nth] ].
  rewrite (handle_elements self gen items _ C P B I), E. reflexivity.
Qed.

(** Every way in which the body is malformed makes lines 21-40 raise. *)
Lemma malformed_raises (post_data : list byte) (e : exn) (st : state) :
  malformed post_data e -> exists st', predict post_data st = (inl e, st').
Proof.
  intro M. unfold predict, bind, eval.
  destruct M as [e D | text e D J | text v D J N | text v lines e D J G I
                 | text v lines elements before bad after D J G I -> N].
  - rewrite D. eexists. reflexivity.
  - rewrite D. simpl. rewrite J. eexists. reflexivity.
  - rewrite D. simpl. rewrite J. simpl.
    destruct v; try (eexists; reflexivity). exfalso. eapply N. reflexivity.
  - rewrite D. simpl. rewrite J. simpl. rewrite G. simpl. rewrite I.
    eexists. reflexivity.
  - rewrite D. simpl. rewrite J. simpl. rewrite G. simpl. rewrite I. simpl.
    unfold ret. rewrite (for_line_in_bad_state before bad after N).
    eexists. reflexivity.
Qed.

(** The replies of the server, one by one: nothing when the length cannot
    be read, the library's 501, and the four replies of the handler. *)
Lemma serve_cases (self : request) (gen : nat -> Z) :
  (exists e, serve self gen = (inl e, []))
  \/ (exists msg, serve self gen = (inr tt, [SendError 501 msg]))
  \/ serve self gen = (inr tt, not_found_reply)
  \/ serve self gen = (inr tt, preflight_reply)
  \/ (exists ps, serve self gen = (inr tt, success_reply ps))
  \/ (exists e, serve self gen = (inr tt, failure_reply e)).
Proof.
  destruct (string_dec (command self) "OPTIONS") as [C | NO].
  { right; right; right; left.
    unfold serve. rewrite (handle_OPTIONS self C), do_OPTIONS_reply. reflexivity. }
  destruct (string_dec (command self) "POST") as [C | NP].
  2:{ right; left. eexists.
      unfold serve. rewrite (handle_other self _ NP NO). reflexivity. }
  destruct (string_dec (path self) "/predict") as [P | NP].
  2:{ right; right; left.
      unfold serve. rewrite (handle_POST self C), (do_POST_elsewhere self _ NP).
      reflexivity. }
  destruct (int (headers_get (headers self) "Content-Length")) as [e | n] eqn:Len.
  { left. exists e.
    unfold serve. rewrite (handle_POST self C), (do_POST_unreadable self e _ P Len).
    reflexivity. }
  destruct (read (rfile self) n) as [e | post_data] eqn:R.
  { left. exists e.
    unfold serve. rewrite (handle_POST self C), (do_POST_unread self n e _ P Len R).
    reflexivity. }
  rewrite (serve_predict self n post_data gen C P Len R).
  destruct (predict post_data {| rng := gen; wire := [] |})
    as [[e | ps] st'].
  - right; right; right; right; right. exists e. reflexivity.
  - right; right; right; right; left. exists ps. reflexivity.
Qed.

(** X1. A POST to [/predict] whose [Content-Length] field is missing or is
    not an integer gets no reply from the handler: [int] raises at line 16,
    before the try statement, the exception leaves [do_POST], and no status
    line, header or body has been sent. *)
Theorem unreadable_length_escapes (self : request) (gen : nat -> Z) (e : exn) :
  command self = "POST" ->
  path self = "/predict" ->
  int (headers_get (headers self) "Content-Length") = inl e ->
  serve self gen = (inl e, [])
  /\ status (snd (serve self gen)) = None
  /\ body (snd (serve self gen)) = [].
Proof.
  intros C P Len.
  assert (S : serve self gen = (inl e, []));
    [ | rewrite S; split; [reflexivity | split; reflexivity] ].
  unfold serve. rewrite (handle_POST self C), (do_POST_unreadable self e _ P Len).
  reflexivity.
Qed.

(** X2. Once the body of a POST to [/predict] has been read, no exception
    leaves the handler, and the reply is the success reply exactly when the
    body is not malformed: either it is a success reply and no case of
    [malformed] applies, or it is the failure reply for the exception of the
    case that applies. *)
Theorem reply_is_success_or_failure (self : request) (gen : nat -> Z)
        (post_data : list byte) :
  command self = "POST" ->
  path self = "/predict" ->
  body_is self post_data ->
  (exists probabilities,
     serve self gen = (inr tt, success_reply probabilities)
     /\ forall e, ~ malformed post_data e)
  \/ (exists e,
        malformed post_data e
        /\ serve self gen = (inr tt, failure_reply e)).
Proof.
  intros C P (n & Len & Rd).
  rewrite (serve_predict self n post_data gen C P Len Rd).
  destruct (predict post_data {| rng := gen; wire := [] |})
    as [[e | ps] st'] eqn:R.
  - right. exists e. split; [ | reflexivity]. exact (predict_raises _ _ _ _ R).
  - left. exists ps. split; [reflexivity | ].
    intros e M.
    destruct (malformed_raises _ e {| rng := gen; wire := [] |} M) as (st'' & R').
    rewrite R in R'. discriminate R'.
Qed.

(** X3. Only the declared number of bytes is parsed: two POSTs to
    [/predict] that declare the length of the same leading bytes get the
    same reply, whatever follows those bytes on the connection. *)
Theorem bytes_after_length_ignored (self1 self2 : request) (gen : nat -> Z)
        (data extra1 extra2 : list byte) :
  command self1 = "POST" -> path self1 = "/predict" ->
  command self2 = "POST" -> path self2 = "/predict" ->
  int (headers_get (headers self1) "Content-Length")
    = inr (Z.of_nat (List.length data)) ->
  int (headers_get (headers self2) "Content-Length")
    = inr (Z.of_nat (List.length data)) ->
  rfile self1 = (data ++ extra1)%list ->
  rfile self2 = (data ++ extra2)%list ->
  serve self1 gen = serve self2 gen.
Proof.
  intros C1 P1 C2 P2 L1 L2 R1 R2.
  assert (Rd : forall extra,
             read (data ++ extra)%list (Z.of_nat (List.length data))
             = match buffer (Z.of_nat (List.length data)) with
               | Some e => inl e
               | None => inr data
               end).
  { intro extra. unfold read.
    destruct (Z.ltb_spec (Z.of_nat (List.length data)) (-1)) as [Neg | _]; [lia | ].
    destruct (Z.eqb_spec (Z.of_nat (List.length data)) (-1)) as [Neg | _]; [lia | ].
    destruct (buffer (Z.of_nat (List.length data))); [reflexivity | ].
    rewrite Nat2Z.id, firstn_app, Nat.sub_diag, firstn_all. simpl.
    rewrite app_nil_r. reflexivity. }
  pose proof (Rd extra1) as Rd1. pose proof (Rd extra2) as Rd2.
  rewrite <- R1 in Rd1. rewrite <- R2 in Rd2.
  destruct (buffer (Z.of_nat (List.length data))) as [e | ].
  - unfold serve.
    rewrite (handle_POST self1 C1), (do_POST_unread self1 _ e _ P1 L1 Rd1).
    rewrite (handle_POST self2 C2), (do_POST_unread self2 _ e _ P2 L2 Rd2).
    reflexivity.
  - rewrite (serve_predict self1 _ data gen C1 P1 L1 Rd1).
    rewrite (serve_predict self2 _ data gen C2 P2 L2 Rd2). reflexivity.
Qed.

End Replies.

Section Iteration.

Context {L : PyLib}.

(** X4. When [lines] is a JSON string instead of a list, the loop runs over
    its characters: the reply is a success reply with one probability per
    character, the [i]-th being the score of the one-character line made of
    the [i]-th character. *)
Theorem string_is_scored_by_character (self : request) (gen : nat -> Z)
        (items : list (str * pyvalue)) (s : str) :
  command self = "POST" ->
  path self = "/predict" ->
  body_is_object self items ->
  dict_lookup (py "lines") items = Some (PyStr s) ->
  exists probabilities,
    serve self gen = (inr tt, success_reply probabilities)
    /\ List.length probabilities = List.length s
    /\ forall i c,
         nth_error s i = Some c ->
         exists p, nth_error probabilities i = Some p
                   /\ score [c] (gen i) = inr p.
Proof.
  intros C P B Lk.
  destruct (handle_strings self gen items (List.map (fun c => [c]) s) C P B)
    as (ps & H & Len & Nth).
  { rewrite Lk. simpl. rewrite map_map. reflexivity. }
  exists ps. split; [ | split ].
  - unfold serve. rewrite H. reflexivity.
  - rewrite Len. apply length_map.
  - intros i c Hc. apply (Nth i [c]).
    rewrite nth_error_map, Hc. reflexivity.
Qed.

(** X5. When [lines] is a JSON object instead of a list, the loop runs over
    its keys, in the order of the object: one probability per key, the
    [i]-th being the score of the [i]-th key; the values of the object are
    not looked at. *)
Theorem object_is_scored_by_key (self : request) (gen : nat -> Z)
        (items lines : list (str * pyvalue)) :
  command self = "POST" ->
  path self = "/predict" ->
  body_is_object self items ->
  dict_lookup (py "lines") items = Some (PyDict lines) ->
  exists probabilities,
    serve self gen = (inr tt, success_reply probabilities)
    /\ List.length probabilities = List.length lines
    /\ forall i key value,
         nth_error lines i = Some (key, value) ->
         exists p, nth_error probabilities i = Some p
                   /\ score key (gen i) = inr p.
Proof.
  intros C P B Lk.
  destruct (handle_strings self gen items (List.map fst lines) C P B)
    as (ps & H & Len & Nth).
  { rewrite Lk. simpl. rewrite map_map. reflexivity. }
  exists ps. split; [ | split ].
  - unfold serve. rewrite H. reflexivity.
  - rewrite Len. apply length_map.
  - intros i key value Hk. apply (Nth i key).
    rewrite nth_error_map, Hk. reflexivity.
Qed.

(** X6. A valid request takes exactly one integer of the random generator
    per line: the requests served after it are served with the generator
    advanced by the number of its lines. *)
Theorem valid_request_takes_one_draw_per_line
        (self : request) (rest : list request) (gen : nat -> Z)
        (items : list (str * pyvalue)) (lines : list str) :
  command self = "POST" ->
  path self = "/predict" ->
  body_is_object self items ->
  dict_lookup (py "lines") items = Some (PyList (List.map PyStr lines)) ->
  exists probabilities,
    serve_forever (self :: rest) gen
    = (inr tt, success_reply probabilities)
      :: serve_forever rest (fun n => gen (List.length lines + n)%nat).
Proof.
  intros C P B Lk.
  destruct (handle_strings self gen items lines C P B) as (ps & H & _).
  { rewrite Lk. reflexivity. }
  exists ps. cbn [serve_forever]. unfold serve, generator_after.
  rewrite H. reflexivity.
Qed.

(** X7. A request rejected because of an element that is not a string has
    taken one integer of the generator for each string before that element:
    the requests served after it are served with the generator advanced by
    that number, although its reply carries no probability. *)
Theorem rejected_request_keeps_its_draws
        (self : request) (rest : list request) (gen : nat -> Z)
        (items : list (str * pyvalue))
        (before : list str) (bad : pyvalue) (after : list pyvalue) :
  command self = "POST" ->
  path self = "/predict" ->
  body_is_object self items ->
  dict_lookup (py "lines") items
    = Some (PyList (List.map PyStr before ++ bad :: after)%list) ->
  is_str bad = false ->
  serve_forever (self :: rest) gen
  = (inr tt, failure_reply (AttributeError bad "strip"))
    :: serve_forever rest (fun n => gen (List.length before + n)%nat).
Proof.
  intros C P B Lk S.
  assert (N : forall s, bad <> PyStr s) by (intros s ->; discriminate S).
  cbn [serve_forever]. unfold serve, generator_after.
  rewrite (handle_elements self gen items
             (List.map PyStr before ++ bad :: after)%list C P B);
    [ | rewrite Lk; reflexivity ].
  rewrite (for_line_in_bad_state before bad after N). reflexivity.
Qed.

(** The generator is left as it was by a request that does not enter the
    try statement. *)
Lemma generator_untouched (self : request) (gen : nat -> Z) :
  command self <> "POST"
  \/ path self <> "/predict"
  \/ (exists e, int (headers_get (headers self) "Content-Length") = inl e) ->
  generator_after self gen = gen.
Proof.
  intro H. unfold generator_after.
  destruct (string_dec (command self) "OPTIONS") as [C | NO].
  { rewrite (handle_OPTIONS self C), do_OPTIONS_reply. reflexivity. }
  destruct (string_dec (command self) "POST") as [C | NP].
  2:{ rewrite (handle_other self _ NP NO). reflexivity. }
  rewrite (handle_POST self C).
  destruct (string_dec (path self) "/predict") as [P | NP].
  2:{ rewrite (do_POST_elsewhere self _ NP). reflexivity. }
  destruct H as [H | [H | (e & H)]]; [contradiction | contradiction | ].
  rewrite (do_POST_unreadable self e _ P H). reflexivity.
Qed.

(** X8. Requests that do not enter the try statement (any method other than
    POST, any path other than [/predict], a length that cannot be read) do
    not touch the random generator: served before other requests, they
    leave the replies to those requests as they would be without them. *)
Theorem other_requests_do_not_draw (first rest : list request) (gen : nat -> Z) :
  Forall (fun self =>
            command self <> "POST"
            \/ path self <> "/predict"
            \/ (exists e, int (headers_get (headers self) "Content-Length") = inl e))
         first ->
  serve_forever (first ++ rest)%list gen
  = (serve_forever first gen ++ serve_forever rest gen)%list.
Proof.
  intro F. induction F as [ | self first H _ IH]; [reflexivity | ].
  cbn [app serve_forever]. rewrite (generator_untouched self gen H), IH.
  reflexivity.
Qed.

End Iteration.

Section Shape.

Context {L : PyLib}.

(** X9. A reply whose status is not 200 carries none of the CORS fields:
    the only header field the handler sends with a 404 or a 500, if any, is
    [Content-Type]. *)
Theorem no_cors_without_200 (self : request) (gen : nat -> Z) :
  status (snd (serve self gen)) <> Some 200 ->
  forall keyword value,
    has_header (snd (serve self gen)) keyword value -> keyword = "Content-Type".
Proof.
  intros NS keyword value H. unfold has_header in H.
  destruct (serve_cases self gen)
    as [(e & S) | [(msg & S) | [S | [S | [(ps & S) | (e & S)]]]]];
    rewrite S in *; simpl in *.
  - contradiction.
  - destruct H as [H | []]; discriminate H.
  - destruct H as [H | [H | []]]; discriminate H.
  - exfalso. apply NS. reflexivity.
  - exfalso. apply NS. reflexivity.
  - destruct H as [H | [H | [H | [H | []]]]]; try discriminate H.
    injection H as <- _. reflexivity.
Qed.

(** X10. Whatever the request, the handler either sends nothing (and then
    an exception has left it) or one complete reply in the order of the
    protocol: one status line, then header fields, then the end of the
    headers, then at most one write.  The status is 200, 404 or 500, or the
    reply is the library's 501. *)
Theorem replies_are_in_order (self : request) (gen : nat -> Z) :
  match serve self gen with
  | (inl _, w) => w = []
  | (inr _, w) =>
      (exists msg, w = [SendError 501 msg])
      \/ (in_order w
          /\ (status w = Some 200 \/ status w = Some 404 \/ status w = Some 500))
  end.
Proof.
  destruct (serve_cases self gen)
    as [(e & S) | [(msg & S) | [S | [S | [(ps & S) | (e & S)]]]]];
    rewrite S.
  - reflexivity.
  - left. exists msg. reflexivity.
  - right. split; [ | right; left; reflexivity].
    exists 404, [], []. split; [reflexivity | simpl; lia].
  - right. split; [ | left; reflexivity].
    exists 200,
      [("Access-Control-Allow-Origin", "*");
       ("Access-Control-Allow-Methods", "POST, OPTIONS");
       ("Access-Control-Allow-Headers", "Content-Type")], [].
    split; [reflexivity | simpl; lia].
  - right. split; [ | left; reflexivity].
    exists 200,
      [("Content-Type", "application/json");
       ("Access-Control-Allow-Origin", "*");
       ("Access-Control-Allow-Methods", "POST, OPTIONS");
       ("Access-Control-Allow-Headers", "Content-Type")],
      [json_dumps (PyDict [(py "probabilities", floats ps)])].
    split; [reflexivity | simpl; lia].
  - right. split; [ | right; right; reflexivity].
    exists 500, [("Content-Type", "application/json")],
      [json_dumps (PyDict [(py "error", PyStr (py (exn_str e)))])].
    split; [reflexivity | simpl; lia].
Qed.

(** X11. Every reply to which the handler writes a body declares it as
    [Content-Type: application/json]. *)
Theorem body_comes_with_content_type (self : request) (gen : nat -> Z) :
  body (snd (serve self gen)) <> [] ->
  has_header (snd (serve self gen)) "Content-Type" "application/json".
Proof.
  intro NB. unfold has_header.
  destruct (serve_cases self gen)
    as [(e & S) | [(msg & S) | [S | [S | [(ps & S) | (e & S)]]]]];
    rewrite S in *; simpl in *; try (exfalso; apply NB; reflexivity); tauto.
Qed.

End Shape.

Section Lines.

Local Open Scope Q_scope.

Lemma lstrip_after_space (ws s : str) :
  forallb isspace ws = true -> lstrip (ws ++ s)%list = lstrip s.
Proof.
  induction ws as [ | a ws IH]; simpl; [reflexivity | ].
  destruct (isspace a); simpl; [exact IH | discriminate].
Qed.

Lemma contains_after_space (ws s sub : str) :
  forallb isspace ws = true ->
  match sub with
  | c :: _ => isspace c = false
  | [] => False
  end ->
  contains (ws ++ s)%list sub = contains s sub.
Proof.
  intros W Hc. destruct sub as [ | c sub]; [contradiction | ].
  induction ws as [ | a ws IH]; [reflexivity | ].
  simpl in W. apply andb_true_iff in W as [Wa W].
  change ((a :: ws) ++ s)%list with (a :: (ws ++ s))%list.
  cbn [contains startswith].
  destruct (N.eqb_spec a c) as [E | _]; [congruence | ].
  simpl. exact (IH W).
Qed.

(** X12. Indentation does not matter: a line and the same line after any
    leading whitespace take the same branch and get the same draw and the
    same score. *)
Theorem indentation_is_ignored (ws line : str) :
  forallb isspace ws = true ->
  (forall st, line_prob (PyStr (ws ++ line)%list) st = line_prob (PyStr line) st)
  /\ (forall k, score (ws ++ line)%list k = score line k).
Proof.
  intro W.
  assert (E : forall st, line_prob (PyStr (ws ++ line)%list) st
                         = line_prob (PyStr line) st).
  { intro st. unfold line_prob, strip.
    rewrite (lstrip_after_space ws line W).
    rewrite !(contains_after_space ws line _ W) by reflexivity.
    reflexivity. }
  split; [exact E | ].
  intro k. unfold score. rewrite E. reflexivity.
Qed.

(** X13. The closed interval of each rule is attained at both ends: when
    [random()] returns 0 the score is the lower end point, and when it
    returns its largest value, 1 - 2^-53, the score is the upper end
    point. *)
Theorem end_points_are_attained (line : str) :
  exists r,
    classify line = Some r
    /\ score line 0 = inr (lo r)
    /\ score line (2 ^ 53 - 1) = inr (hi r).
Proof.
  destruct (score_classify line 0) as (r & C & E0).
  destruct (score_classify line (2 ^ 53 - 1)) as (r' & C' & E1).
  assert (r' = r) by congruence. subst r'.
  exists r. split; [exact C | ].
  rewrite E0, E1. split; destruct r; vm_compute; reflexivity.
Qed.

Lemma random_mono (k1 k2 : Z) :
  (k1 mod 2 ^ 53 <= k2 mod 2 ^ 53)%Z -> random k1 <= random k2.
Proof.
  intro H. unfold random. rewrite !Qred_correct.
  rewrite Zle_Qle in H.
  apply Qmult_le_compat_r; [exact H | discriminate].
Qed.

Lemma uniform_mono (a b : float) (k1 k2 : Z) :
  a <= b ->
  (k1 mod 2 ^ 53 <= k2 mod 2 ^ 53)%Z ->
  uniform a b k1 <= uniform a b k2.
Proof.
  intros Hab Hk. unfold uniform, fadd, fmul.
  pose proof (random_mono k1 k2 Hk) as R.
  assert (Hd : 0 <= fsub b a) by (apply b64_nonneg; lra).
  assert (M : b64 (fsub b a * random k1) <= b64 (fsub b a * random k2))
    by (apply b64_mono; nra).
  apply b64_mono. lra.
Qed.

(** X14. The score of a line never decreases when the draw increases:
    neither the floating-point evaluation of [a + (b - a) * random()] nor
    the rounding to three places reverses the order of two draws. *)
Theorem score_follows_the_draw (line : str) (k1 k2 : Z) :
  (k1 mod 2 ^ 53 <= k2 mod 2 ^ 53)%Z ->
  exists p1 p2,
    score line k1 = inr p1 /\ score line k2 = inr p2 /\ p1 <= p2.
Proof.
  intro Hk.
  destruct (score_classify line k1) as (r & C & E1).
  destruct (score_classify line k2) as (r' & C' & E2).
  assert (r' = r) by congruence. subst r'.
  exists (round (uniform (lo r) (hi r) k1) 3), (round (uniform (lo r) (hi r) k2) 3).
  split; [exact E1 | split; [exact E2 | ] ].
  apply round_mono, uniform_mono; [apply interval_ordered | exact Hk].
Qed.

End Lines.

(** ** Concrete runs of the further properties *)

(** X1 on a POST without a [Content-Length] field. *)
Lemma unreadable_length_escapes_witness :
  @serve Sample.lib (Sample.bare "POST" "/predict") (Sample.gen 1 7919)
  = (inl (TypeError
            "int() argument must be a string, a bytes-like object or a real number, not 'NoneType'"),
     [])
  /\ status (snd (@serve Sample.lib (Sample.bare "POST" "/predict")
                         (Sample.gen 1 7919))) = None
  /\ body (snd (@serve Sample.lib (Sample.bare "POST" "/predict")
                       (Sample.gen 1 7919))) = [].
Proof.
  apply (@unreadable_length_escapes Sample.lib
           (Sample.bare "POST" "/predict") (Sample.gen 1 7919)); reflexivity.
Defined.

(** X2 on a truncated JSON text. *)
Lemma reply_is_success_or_failure_witness :
  (exists probabilities,
     @serve Sample.lib (Sample.post "/predict" "{'lines': [") (Sample.gen 1 7919)
     = (inr tt, success_reply probabilities)
     /\ forall e, ~ @malformed Sample.lib (Sample.json "{'lines': [") e)
  \/ (exists e,
        @malformed Sample.lib (Sample.json "{'lines': [") e
        /\ @serve Sample.lib (Sample.post "/predict" "{'lines': [")
                  (Sample.gen 1 7919)
           = (inr tt, failure_reply e)).
Proof.
  apply (@reply_is_success_or_failure Sample.lib
           (Sample.post "/predict" "{'lines': [") (Sample.gen 1 7919)
           (Sample.json "{'lines': [")).
  - reflexivity.
  - reflexivity.
  - exists 11. split; vm_compute; reflexivity.
Defined.

(** X3 on the body [{}] alone and followed by other bytes. *)
Lemma bytes_after_length_ignored_witness :
  @serve Sample.lib (Cases.post_with_length 2 "{}" "") (Sample.gen 1 7919)
  = @serve Sample.lib (Cases.post_with_length 2 "{}" "{'lines': 5}")
           (Sample.gen 1 7919).
Proof.
  apply (@bytes_after_length_ignored Sample.lib
           (Cases.post_with_length 2 "{}" "")
           (Cases.post_with_length 2 "{}" "{'lines': 5}")
           (Sample.gen 1 7919)
           (Sample.json "{}") (Sample.json "") (Sample.json "{'lines': 5}"));
    reflexivity.
Defined.

(** X4 on the string ['a #']. *)
Lemma string_is_scored_by_character_witness :
  exists probabilities,
    @serve Cases.lib (Sample.post "/predict" "{'lines': 'a #'}") (Sample.gen 1 7919)
    = (inr tt, success_reply probabilities)
    /\ List.length probabilities = List.length (py "a #")
    /\ forall i c,
         nth_error (py "a #") i = Some c ->
         exists p, nth_error probabilities i = Some p
                   /\ score [c] (Sample.gen 1 7919 i) = inr p.
Proof.
  apply (@string_is_scored_by_character Cases.lib
           (Sample.post "/predict" "{'lines': 'a #'}") (Sample.gen 1 7919)
           [(py "lines", PyStr (py "a #"))] (py "a #")).
  - reflexivity.
  - reflexivity.
  - sample_body "{'lines': 'a #'}".
  - reflexivity.
Defined.

(** X5 on an object with two keys. *)
Lemma object_is_scored_by_key_witness :
  exists probabilities,
    @serve Cases.lib (Sample.post "/predict" "{'lines': {'def f(x):': 1, '': 2}}")
           (Sample.gen 1 7919)
    = (inr tt, success_reply probabilities)
    /\ List.length probabilities
       = List.length [(py "def f(x):", PyInt 1); (py "", PyInt 2)]
    /\ forall i key value,
         nth_error [(py "def f(x):", PyInt 1); (py "", PyInt 2)] i
           = Some (key, value) ->
         exists p, nth_error probabilities i = Some p
                   /\ score key (Sample.gen 1 7919 i) = inr p.
Proof.
  apply (@object_is_scored_by_key Cases.lib
           (Sample.post "/predict" "{'lines': {'def f(x):': 1, '': 2}}")
           (Sample.gen 1 7919)
           [(py "lines", PyDict [(py "def f(x):", PyInt 1); (py "", PyInt 2)])]
           [(py "def f(x):", PyInt 1); (py "", PyInt 2)]).
  - reflexivity.
  - reflexivity.
  - sample_body "{'lines': {'def f(x):': 1, '': 2}}".
  - reflexivity.
Defined.

(** X6 on the scenario of the specification, served twice. *)
Lemma valid_request_takes_one_draw_per_line_witness :
  exists probabilities,
    @serve_forever Sample.lib
      [Sample.post "/predict" Sample.five_lines_body;
       Sample.post "/predict" Sample.five_lines_body]
      (Sample.gen 1 7919)
    = (inr tt, success_reply probabilities)
      :: @serve_forever Sample.lib
           [Sample.post "/predict" Sample.five_lines_body]
           (fun n => Sample.gen 1 7919 (List.length Sample.five_lines + n)%nat).
Proof.
  apply (@valid_request_takes_one_draw_per_line Sample.lib
           (Sample.post "/predict" Sample.five_lines_body)
           [Sample.post "/predict" Sample.five_lines_body]
           (Sample.gen 1 7919)
           [(py "lines", PyList (List.map PyStr Sample.five_lines))]
           Sample.five_lines).
  - reflexivity.
  - reflexivity.
  - sample_body Sample.five_lines_body.
  - reflexivity.
Defined.

(** X7 on a list whose third element is a number. *)
Lemma rejected_request_keeps_its_draws_witness :
  @serve_forever Cases.lib
    [Sample.post "/predict" "{'lines': ['import os', 'x = 1', 7, 'y = 2']}";
     Sample.post "/predict" Sample.five_lines_body]
    (Sample.gen 1 7919)
  = (inr tt, failure_reply (AttributeError (PyInt 7) "strip"))
    :: @serve_forever Cases.lib
         [Sample.post "/predict" Sample.five_lines_body]
         (fun n => Sample.gen 1 7919
                     (List.length [py "import os"; py "x = 1"] + n)%nat).
Proof.
  apply (@rejected_request_keeps_its_draws Cases.lib
           (Sample.post "/predict" "{'lines': ['import os', 'x = 1', 7, 'y = 2']}")
           [Sample.post "/predict" Sample.five_lines_body]
           (Sample.gen 1 7919)
           [(py "lines",
             PyList [PyStr (py "import os"); PyStr (py "x = 1"); PyInt 7;
                     PyStr (py "y = 2")])]
           [py "import os"; py "x = 1"] (PyInt 7) [PyStr (py "y = 2")]).
  - reflexivity.
  - reflexivity.
  - sample_body "{'lines': ['import os', 'x = 1', 7, 'y = 2']}".
  - reflexivity.
  - reflexivity.
Defined.

(** X8 on a GET, a preflight, a POST elsewhere and a POST without length,
    served before the scenario of the specification. *)
Lemma other_requests_do_not_draw_witness :
  @serve_forever Sample.lib
    ([Sample.bare "GET" "/predict"; Sample.bare "OPTIONS" "/predict";
      Sample.post "/status" "{}"; Sample.bare "POST" "/predict"]
     ++ [Sample.post "/predict" Sample.five_lines_body])%list
    (Sample.gen 1 7919)
  = (@serve_forever Sample.lib
       [Sample.bare "GET" "/predict"; Sample.bare "OPTIONS" "/predict";
        Sample.post "/status" "{}"; Sample.bare "POST" "/predict"]
       (Sample.gen 1 7919)
     ++ @serve_forever Sample.lib
          [Sample.post "/predict" Sample.five_lines_body]
          (Sample.gen 1 7919))%list.
Proof.
  apply (@other_requests_do_not_draw Sample.lib).
  repeat apply Forall_cons; try apply Forall_nil.
  - left. discriminate.
  - left. discriminate.
  - right. left. discriminate.
  - right. right. eexists. reflexivity.
Defined.

(** X9 on the reply to a truncated JSON text. *)
Lemma no_cors_without_200_witness :
  status (snd (@serve Sample.lib (Sample.post "/predict" "{'lines': [")
                      (Sample.gen 1 7919))) = Some 500
  /\ ~ has_header (snd (@serve Sample.lib (Sample.post "/predict" "{'lines': [")
                               (Sample.gen 1 7919)))
                  "Access-Control-Allow-Origin" "*".
Proof.
  split; [reflexivity | ].
  intro H.
  assert (E : "Access-Control-Allow-Origin" = "Content-Type").
  { apply (@no_cors_without_200 Sample.lib
             (Sample.post "/predict" "{'lines': [") (Sample.gen 1 7919)
             ltac:(discriminate) _ _ H). }
  discriminate E.
Defined.

(** X11 on the reply to the scenario of the specification. *)
Lemma body_comes_with_content_type_witness :
  has_header (snd (@serve Sample.lib
                     (Sample.post "/predict" Sample.five_lines_body)
                     (Sample.gen 1 7919)))
             "Content-Type" "application/json".
Proof.
  apply (@body_comes_with_content_type Sample.lib
           (Sample.post "/predict" Sample.five_lines_body) (Sample.gen 1 7919)).
  vm_compute. discriminate.
Defined.

(** X12 on a definition indented by four spaces. *)
Lemma indentation_is_ignored_witness :
  (forall st, line_prob (PyStr (py "    " ++ py "def f(x):")%list) st
              = line_prob (PyStr (py "def f(x):")) st)
  /\ (forall k, score (py "    " ++ py "def f(x):")%list k
                = score (py "def f(x):") k).
Proof.
  apply (indentation_is_ignored (py "    ") (py "def f(x):")). reflexivity.
Defined.

(** X14 on two draws of which the second wraps around 2^53. *)
Lemma score_follows_the_draw_witness :
  exists p1 p2,
    score (py "x = 1") 5 = inr p1
    /\ score (py "x = 1") (2 ^ 53 + 4503599627370496) = inr p2
    /\ (p1 <= p2)%Q.
Proof.
  apply (score_follows_the_draw (py "x = 1") 5 (2 ^ 53 + 4503599627370496)).
  vm_compute. discriminate.
Defined.

Section Lengths.

Context {L : PyLib}.


End Lengths.

